(** * Terraform resource import script: a shallow embedding

    Model of [imports/import_resources.py].  The script talks to three
    external parties: the [terraform] executable (through
    [subprocess.run]), the AWS API (through [boto3]) and the terminal
    (through [print]).  Every external call is recorded in a trace, and
    the answer of the outside world to a call is an arbitrary function of
    the calls made so far, so that a statement quantified over the
    environment covers every possible run.

    Python [str] values are Rocq strings; their characters are read as
    the code points U+0000 to U+00FF. *)

From Stdlib Require Import String Ascii List Bool Arith ZArith Lia.
Import ListNotations.
Local Open Scope string_scope.

(** ** Python strings *)

Module PyStr.

(** [str.isspace] for one character, restricted to code points below 256. *)
Definition isspace (c : ascii) : bool :=
  let n := nat_of_ascii c in
  (((9 <=? n) && (n <=? 13)) || ((28 <=? n) && (n <=? 32))
   || (n =? 133) || (n =? 160))%nat.

(** [str.lower] for one character, restricted to code points below 256. *)
Definition lower_char (c : ascii) : ascii :=
  let n := nat_of_ascii c in
  if (((65 <=? n) && (n <=? 90))
      || ((192 <=? n) && (n <=? 214))
      || ((216 <=? n) && (n <=? 222)))%nat
  then ascii_of_nat (n + 32) else c.

Fixpoint lower (s : string) : string :=
  match s with
  | EmptyString => EmptyString
  | String c s' => String (lower_char c) (lower s')
  end.

Fixpoint lstrip_with (p : ascii -> bool) (s : string) : string :=
  match s with
  | EmptyString => EmptyString
  | String c s' => if p c then lstrip_with p s' else s
  end.

Fixpoint rev_append (s acc : string) : string :=
  match s with
  | EmptyString => acc
  | String c s' => rev_append s' (String c acc)
  end.

Definition rev (s : string) : string := rev_append s EmptyString.

Definition rstrip_with (p : ascii -> bool) (s : string) : string :=
  rev (lstrip_with p (rev s)).

Definition strip_with (p : ascii -> bool) (s : string) : string :=
  rstrip_with p (lstrip_with p s).

(** [s.strip()] *)
Definition strip (s : string) : string := strip_with isspace s.

(** [s.strip(chars)] *)
Definition strip_chars (chars : list ascii) (s : string) : string :=
  strip_with (fun c => existsb (Ascii.eqb c) chars) s.

(** [s.startswith(p)] *)
Definition startswith (s p : string) : bool := String.prefix p s.

(** [sep.join(parts)] *)
Definition join (sep : string) (parts : list string) : string :=
  String.concat sep parts.

(** Truth value of a [str]: only the empty string is false. *)
Definition truthy (s : string) : bool :=
  match s with EmptyString => false | String _ _ => true end.

(** Truth value of an [Optional[str]]: [None] and the empty string are
    false. *)
Definition truthy_opt (o : option string) : bool :=
  match o with None => false | Some s => truthy s end.

Definition CR : ascii := "013"%char.
Definition LF : ascii := "010"%char.

(** Newline translation of a text-mode stream: CR LF and a lone CR are
    read as LF.  [after_cr] tells that the character before was a CR,
    whose LF has been delivered already. *)
Fixpoint translate_newlines (after_cr : bool) (s : string) : string :=
  match s with
  | EmptyString => EmptyString
  | String c s' =>
      if Ascii.eqb c CR then String LF (translate_newlines true s')
      else if Ascii.eqb c LF && after_cr then translate_newlines false s'
      else String c (translate_newlines false s')
  end.

(** What [text=True] makes of the output of a child process. *)
Definition universal_newlines (s : string) : string :=
  translate_newlines false s.

(** The string held by an [Optional[str]] that is not [None]. *)
Definition value (o : option string) : string :=
  match o with None => EmptyString | Some s => s end.

End PyStr.

(** ** Exceptions *)

(** The exceptions the script distinguishes.  [PyException] stands for
    every other class derived from [Exception] ([OSError],
    [botocore] client and transport errors, [KeyError], ...);
    [KeyboardInterrupt] and [SystemExit] derive from [BaseException]
    only. *)
Inductive py_exn : Type :=
| CalledProcessError (returncode : Z) (stderr : string)
| PyException (descr : string)
| KeyboardInterrupt
| SystemExit (code : Z).

(** [isinstance(e, Exception)] *)
Definition is_Exception (e : py_exn) : bool :=
  match e with
  | CalledProcessError _ _ | PyException _ => true
  | KeyboardInterrupt | SystemExit _ => false
  end.

(** [isinstance(e, subprocess.CalledProcessError)] *)
Definition is_CalledProcessError (e : py_exn) : bool :=
  match e with
  | CalledProcessError _ _ => true
  | _ => false
  end.

(** ** The outside world *)

(** External calls, in the order of their first appearance in the
    script. *)
Inductive Call : Type :=
| CallWorkspaceShow                      (* terraform workspace show *)
| CallSession (profile : string)         (* boto3.Session(profile_name=..) *)
| CallClient (service : string)          (* session.client(..) *)
| CallConsole (input : string)           (* terraform console, with stdin *)
| CallListBuckets                        (* s3_client.list_buckets() *)
| CallPaginate                           (* paginator.paginate() *)
| CallRolesPage                          (* one page of list_roles fetched *)
| CallImport (address id : string).      (* terraform import address id *)

(** What a child process started by [subprocess.run] can do: exit with a
    status, or never get that far (the executable is missing, the wait is
    interrupted). *)
Inductive proc_outcome : Type :=
| ProcExit (returncode : Z) (out err : string)
| ProcRaise (e : py_exn).

(** One [print] statement of the script each; the argument is what the
    format string interpolates. *)
Inductive Output : Type :=
| OutWorkspaceError                      (* line 49 *)
| OutFoundBucket (name : string)         (* line 75 *)
| OutBucketError (e : py_exn)            (* line 79 *)
| OutFoundRole (name : string)           (* line 90 *)
| OutRoleError (e : py_exn)              (* line 94 *)
| OutWarnNoBucket                        (* line 106 *)
| OutWarnNoRole                          (* line 110 *)
| OutNotNeeded                           (* line 147 *)
| OutStarting (workspace : string)       (* line 150 *)
| OutProfile (profile : string)          (* line 151 *)
| OutPrefix (prefix : string)            (* line 152 *)
| OutBlank                               (* lines 153, 162, 182 *)
| OutNoResources                         (* line 158 *)
| OutFoundCount (n : nat)                (* line 161 *)
| OutDryRun (command_str : string)       (* line 169 *)
| OutRunning (command_str : string)      (* line 171 *)
| OutImported (address : string)         (* line 179 *)
| OutFailed (address stderr : string)    (* line 181 *)
| OutInterrupted                         (* line 216 *)
| OutError (e : py_exn).                 (* line 219 *)

(** The answers of the outside world.  Each one may depend on every call
    made before it.  A bucket listing is the list of the ['Name'] fields
    of [response['Buckets']]; a role listing is the finite sequence of
    pages the paginator would yield, each page being the list of its
    ['RoleName'] fields or the error raised while fetching it. *)
Record Env : Type := {
  terraform_workspace_show : list Call -> proc_outcome;
  terraform_console : list Call -> string -> proc_outcome;
  terraform_import : list Call -> string -> string -> proc_outcome;
  boto3_Session : list Call -> string -> option py_exn;
  session_client : list Call -> string -> option py_exn;
  s3_list_buckets : list Call -> py_exn + list string;
  iam_list_roles : list Call -> list (py_exn + list string)
}.

(** What a run has done so far. *)
Record World : Type := {
  calls : list Call;
  stdout : list Output
}.

Definition world0 : World := {| calls := []; stdout := [] |}.

(** ** A monad for effects and exceptions *)

Inductive result (A : Type) : Type :=
| Ok (a : A)
| Raise (e : py_exn).
Arguments Ok {A} a.
Arguments Raise {A} e.

Definition M (A : Type) : Type := World -> result A * World.

Definition ret {A} (a : A) : M A := fun w => (Ok a, w).

Definition bind {A B} (m : M A) (k : A -> M B) : M B :=
  fun w =>
    match m w with
    | (Ok a, w') => k a w'
    | (Raise e, w') => (Raise e, w')
    end.

Definition raise {A} (e : py_exn) : M A := fun w => (Raise e, w).

(** [try: body  except <class>: handler]: the handler runs for the
    exceptions [catches] accepts, the others propagate. *)
Definition try_except {A} (body : M A) (catches : py_exn -> bool)
    (handler : py_exn -> M A) : M A :=
  fun w =>
    match body w with
    | (Ok a, w') => (Ok a, w')
    | (Raise e, w') => if catches e then handler e w' else (Raise e, w')
    end.

Declare Scope py_scope.
Delimit Scope py_scope with py.
Notation "x <- m ;; k" := (bind m (fun x => k))
  (at level 61, m at next level, right associativity) : py_scope.
Notation "m ;; k" := (bind m (fun _ => k))
  (at level 61, right associativity) : py_scope.
Local Open Scope py_scope.

Definition record_call (c : Call) (w : World) : World :=
  {| calls := calls w ++ [c]; stdout := stdout w |}.

Definition print (o : Output) : M unit :=
  fun w => (Ok tt, {| calls := calls w; stdout := stdout w ++ [o] |}).

(** [subprocess.run(.., capture_output=True, text=True, check=True).stdout]:
    both captured streams are read in text mode, so the script sees them
    after newline translation; a non-zero exit status becomes
    [CalledProcessError], which carries the error stream. *)
Definition subprocess_run (c : Call) (answer : list Call -> proc_outcome)
  : M string :=
  fun w =>
    let w' := record_call c w in
    match answer (calls w) with
    | ProcExit code out err =>
        if (code =? 0)%Z then (Ok (PyStr.universal_newlines out), w')
        else (Raise (CalledProcessError code (PyStr.universal_newlines err)),
              w')
    | ProcRaise e => (Raise e, w')
    end.

(** A [boto3] call that returns a handle or raises. *)
Definition boto_call (c : Call) (answer : list Call -> option py_exn)
  : M unit :=
  fun w =>
    let w' := record_call c w in
    match answer (calls w) with
    | None => (Ok tt, w')
    | Some e => (Raise e, w')
    end.

(** A [boto3] call that returns data or raises. *)
Definition boto_fetch {A} (c : Call) (answer : list Call -> py_exn + A)
  : M A :=
  fun w =>
    let w' := record_call c w in
    match answer (calls w) with
    | inr a => (Ok a, w')
    | inl e => (Raise e, w')
    end.

(** ** class TerraformImporter *)

(** The attributes of an importer.  The [boto3] session and clients carry
    no data of their own in this model; calls through them read [Env]. *)
Record TerraformImporter : Type := {
  profile : string;
  workspace : string;
  project_name : string;
  resource_prefix : string
}.

Definition newline : string := String "010"%char EmptyString.
Definition double_quote : ascii := "034"%char.

(** [e.stderr] of a [CalledProcessError]. *)
Definition exn_stderr (e : py_exn) : string :=
  match e with
  | CalledProcessError _ err => err
  | _ => EmptyString
  end.

(** The [for ... if name.startswith(prefix): print; return name] loop
    shared by both discoverers; [otherwise] is what follows the loop. *)
Fixpoint scan_names (found : string -> Output) (prefix : string)
    (names : list string) (otherwise : M (option string))
  : M (option string) :=
  match names with
  | [] => otherwise
  | name :: rest =>
      if PyStr.startswith name prefix
      then print (found name) ;; ret (Some name)
      else scan_names found prefix rest otherwise
  end.

(** Fetching the next page of the role paginator. *)
Definition fetch_page (page : py_exn + list string) : M (list string) :=
  boto_fetch CallRolesPage (fun _ => page).

(** [for page in paginator.paginate(): for role in page['Roles']: ...] *)
Fixpoint scan_pages (prefix : string) (pages : list (py_exn + list string))
  : M (option string) :=
  match pages with
  | [] => ret None
  | page :: rest =>
      roles <- fetch_page page ;;
      scan_names OutFoundRole prefix roles (scan_pages prefix rest)
  end.

Section Importer.

Variable env : Env.

(** [_get_current_workspace], lines 38-50. *)
Definition _get_current_workspace : M string :=
  try_except
    (out <- subprocess_run CallWorkspaceShow (terraform_workspace_show env) ;;
     ret (PyStr.strip out))
    is_CalledProcessError
    (fun _ => print OutWorkspaceError ;; raise (SystemExit 1)).

(** [_get_project_name], lines 52-66; the [except:] clause is bare. *)
Definition _get_project_name : M string :=
  try_except
    (let input := "var.project_name" ++ newline in
     out <- subprocess_run (CallConsole input)
              (fun h => terraform_console env h input) ;;
     let project_name :=
       PyStr.strip_chars [double_quote] (PyStr.strip out) in
     ret (if PyStr.truthy project_name then project_name
          else "terraform-core"))
    (fun _ => true)
    (fun _ => ret "terraform-core").

(** [__init__], lines 26-36. *)
Definition __init__ (profile : string) (workspace : option string)
  : M TerraformImporter :=
  workspace <- (if PyStr.truthy_opt workspace
                then ret (PyStr.value workspace)
                else _get_current_workspace) ;;
  boto_call (CallSession profile) (fun h => boto3_Session env h profile) ;;
  boto_call (CallClient "s3") (fun h => session_client env h "s3") ;;
  boto_call (CallClient "iam") (fun h => session_client env h "iam") ;;
  project_name <- _get_project_name ;;
  ret {| profile := profile;
         workspace := workspace;
         project_name := project_name;
         resource_prefix :=
           project_name ++ "-state-files-" ++ workspace |}.

Variable self : TerraformImporter.

(** [discover_s3_bucket], lines 68-80. *)
Definition discover_s3_bucket : M (option string) :=
  try_except
    (buckets <- boto_fetch CallListBuckets (s3_list_buckets env) ;;
     scan_names OutFoundBucket (resource_prefix self) buckets (ret None))
    is_Exception
    (fun e => print (OutBucketError e) ;; ret None).

(** [discover_iam_role], lines 82-95. *)
Definition discover_iam_role : M (option string) :=
  try_except
    (pages <- (fun w => (Ok (iam_list_roles env (calls w)),
                         record_call CallPaginate w)) ;;
     scan_pages (resource_prefix self) pages)
    is_Exception
    (fun e => print (OutRoleError e) ;; ret None).

(** [get_import_commands], lines 97-128. *)
Definition get_import_commands : M (list (string * string)) :=
  let commands : list (string * string) := [] in
  s3_bucket <- discover_s3_bucket ;;
  iam_role <- discover_iam_role ;;
  if negb (PyStr.truthy_opt s3_bucket)
  then print OutWarnNoBucket ;; ret commands
  else if negb (PyStr.truthy_opt iam_role)
  then print OutWarnNoRole ;; ret commands
  else
    let s3_bucket := PyStr.value s3_bucket in
    let iam_role := PyStr.value iam_role in
    let commands := (commands ++
      [ ("aws_s3_bucket.terraform_state", s3_bucket);
        ("aws_s3_bucket_versioning.terraform_state_versioning",
         s3_bucket);
        ("aws_s3_bucket_server_side_encryption_configuration.terraform_state_encryption",
         s3_bucket);
        ("aws_s3_bucket_public_access_block.terraform_state_pab",
         s3_bucket);
        ("aws_s3_bucket_lifecycle_configuration.terraform_state_lifecycle",
         s3_bucket) ])%list in
    let commands := (commands ++
      [ ("aws_iam_role.terraform_state_role", iam_role);
        ("aws_iam_role_policy.terraform_state_policy",
         (iam_role ++ ":terraform-state-files-policy")%string) ])%list in
    ret commands.

(** [check_import_needed], lines 130-142; the [except:] clause is bare. *)
Definition check_import_needed : M bool :=
  try_except
    (let input := "var.import_existing_resources" ++ newline in
     out <- subprocess_run (CallConsole input)
              (fun h => terraform_console env h input) ;;
     ret (String.eqb (PyStr.lower (PyStr.strip out)) "true"))
    (fun _ => true)
    (fun _ => ret false).

(** The [for] loop of [run_import], lines 164-182. *)
Fixpoint run_import_loop (dry_run : bool)
    (commands : list (string * string)) : M unit :=
  match commands with
  | [] => ret tt
  | (resource_address, resource_id) :: rest =>
      let command :=
        ["terraform"; "import"; resource_address; resource_id] in
      let command_str := PyStr.join " " command in
      (if dry_run
       then print (OutDryRun command_str)
       else
         print (OutRunning command_str) ;;
         try_except
           (_ <- subprocess_run (CallImport resource_address resource_id)
                   (fun h => terraform_import env h
                               resource_address resource_id) ;;
            print (OutImported resource_address))
           is_CalledProcessError
           (fun e => print (OutFailed resource_address (exn_stderr e))) ;;
         print OutBlank) ;;
      run_import_loop dry_run rest
  end.

(** [run_import], lines 144-182. *)
Definition run_import (dry_run : bool) : M unit :=
  needed <- check_import_needed ;;
  if negb needed
  then print OutNotNeeded
  else
    print (OutStarting (workspace self)) ;;
    print (OutProfile (profile self)) ;;
    print (OutPrefix (resource_prefix self)) ;;
    print OutBlank ;;
    commands <- get_import_commands ;;
    match commands with
    | [] => print OutNoResources
    | _ :: _ =>
        print (OutFoundCount (length commands)) ;;
        print OutBlank ;;
        run_import_loop dry_run commands
    end.

End Importer.

(** The parsed command line: [--dry-run], [--workspace], [--profile]. *)
Record Args : Type := {
  arg_dry_run : bool;
  arg_workspace : option string;
  arg_profile : string
}.

(** [main], lines 209-220, after argument parsing. *)
Definition main (env : Env) (args : Args) : M unit :=
  try_except
    (importer <- __init__ env (arg_profile args) (arg_workspace args) ;;
     run_import env importer (arg_dry_run args))
    (fun e => match e with
              | KeyboardInterrupt => true
              | _ => is_Exception e
              end)
    (fun e => match e with
              | KeyboardInterrupt =>
                  print OutInterrupted ;; raise (SystemExit 1)
              | _ => print (OutError e) ;; raise (SystemExit 1)
              end).

(** ** Vocabulary of the statements *)

(** The invariant line 36 of [__init__] establishes. *)
Definition prefix_invariant (self : TerraformImporter) : Prop :=
  resource_prefix self
  = (project_name self ++ "-state-files-" ++ workspace self)%string.

(** Whether a child process failed to deliver: it exited with a non-zero
    status, or [subprocess.run] itself raised. *)
Definition proc_fails (o : proc_outcome) : bool :=
  match o with
  | ProcExit code _ _ => negb (code =? 0)%Z
  | ProcRaise _ => true
  end.

Definition import_call (c : string * string) : Call :=
  CallImport (fst c) (snd c).

(** The calls made before the import at position [k] of [plan], when the
    loop was entered after the calls [h] and reached that position. *)
Definition history_at (h : list Call) (plan : list (string * string))
    (k : nat) : list Call :=
  (h ++ map import_call (firstn k plan))%list.

(** Whether the import process ran to an exit status, zero or not. *)
Definition proc_exits (o : proc_outcome) : bool :=
  match o with
  | ProcExit _ _ _ => true
  | ProcRaise _ => false
  end.

(** What the loop prints after [Running: ...] for an import that ran to
    an exit status. *)
Definition import_record (address : string) (o : proc_outcome) : Output :=
  match o with
  | ProcExit code _ err =>
      if (code =? 0)%Z then OutImported address
      else OutFailed address (PyStr.universal_newlines err)
  | ProcRaise _ => OutBlank
  end.

(** What the loop in Apply mode prints when every import runs to an exit
    status, the loop being entered after the calls [h]. *)
Fixpoint import_log (env : Env) (h : list Call)
    (plan : list (string * string)) : list Output :=
  match plan with
  | [] => []
  | (a, x) :: rest =>
      OutRunning (PyStr.join " " ["terraform"; "import"; a; x])
      :: import_record a (terraform_import env h a x)
      :: OutBlank
      :: import_log env (h ++ [CallImport a x])%list rest
  end.

Definition flag_input : string :=
  ("var.import_existing_resources" ++ newline)%string.

Definition is_import (c : Call) : bool :=
  match c with
  | CallImport _ _ => true
  | _ => false
  end.

(** Whether the text read so far ends in a CR: [b] if [s] is empty, else
    whether the last character of [s] is a CR. *)
Fixpoint ends_cr (b : bool) (s : string) : bool :=
  match s with
  | EmptyString => b
  | String c s' => ends_cr (Ascii.eqb c PyStr.CR) s'
  end.

(** Whether every character of [s] satisfies [p]. *)
Fixpoint string_forall (p : ascii -> bool) (s : string) : bool :=
  match s with
  | EmptyString => true
  | String c s' => p c && string_forall p s'
  end.

(** The test that stripping the quote character applies to a
    character. *)
Definition is_quote (c : ascii) : bool :=
  existsb (Ascii.eqb c) [double_quote].

(** The seven managed addresses of [get_import_commands], in order. *)
Definition static_addresses : list string :=
  [ "aws_s3_bucket.terraform_state";
    "aws_s3_bucket_versioning.terraform_state_versioning";
    "aws_s3_bucket_server_side_encryption_configuration.terraform_state_encryption";
    "aws_s3_bucket_public_access_block.terraform_state_pab";
    "aws_s3_bucket_lifecycle_configuration.terraform_state_lifecycle";
    "aws_iam_role.terraform_state_role";
    "aws_iam_role_policy.terraform_state_policy" ].

(** The world after the four lines [run_import] prints once the gate is
    open, lines 150-153. *)
Definition after_banner (self : TerraformImporter) (w : World) : World :=
  {| calls := calls w;
     stdout := ((((stdout w ++ [OutStarting (workspace self)])
                  ++ [OutProfile (profile self)])
                 ++ [OutPrefix (resource_prefix self)])
                ++ [OutBlank])%list |}.

(** An environment in which nobody interrupts: listings fail with
    exceptions derived from [Exception] only, and every import runs to an
    exit status. *)
Definition uninterrupted (env : Env) : Prop :=
  (forall h e, s3_list_buckets env h = inl e -> is_Exception e = true)
  /\ (forall h e, In (inl e) (iam_list_roles env h) -> is_Exception e = true)
  /\ (forall h a x, proc_exits (terraform_import env h a x) = true).

(** ** Concrete environments

    The scenario of the specification: project [acme], workspace [prod],
    a bucket and a role carrying the prefix, and variations of it. *)
Module Scenario.

Definition ok (out : string) : proc_outcome := ProcExit 0 out EmptyString.

Definition bucket : string := "acme-state-files-prod-a1b2".
Definition role : string := "acme-state-files-prod-role".

(** Everything is in place; the import of the versioning resource
    fails. *)
Definition env1 : Env := {|
  terraform_workspace_show := fun _ => ok ("prod" ++ newline);
  terraform_console := fun _ input =>
    if String.eqb input ("var.project_name" ++ newline)
    then ok (String double_quote ("acme" ++ String double_quote newline))
    else ok ("true" ++ newline);
  terraform_import := fun _ a _ =>
    if String.eqb a "aws_s3_bucket_versioning.terraform_state_versioning"
    then ProcExit 1 EmptyString "Error: Cannot import non-existent remote object"
    else ok "Import successful!";
  boto3_Session := fun _ _ => None;
  session_client := fun _ _ => None;
  s3_list_buckets := fun _ =>
    inr ["logs"; bucket; "acme-state-files-prod-zz"];
  iam_list_roles := fun _ =>
    [inr ["admin"; "dev"]; inr [role]; inr ["x"]]
|}.

(** The bucket exists, the role does not. *)
Definition env_no_role : Env := {|
  terraform_workspace_show := terraform_workspace_show env1;
  terraform_console := terraform_console env1;
  terraform_import := terraform_import env1;
  boto3_Session := boto3_Session env1;
  session_client := session_client env1;
  s3_list_buckets := s3_list_buckets env1;
  iam_list_roles := fun _ => [inr ["admin"; "dev"]; inr ["x"]]
|}.

Definition access_denied : py_exn := PyException "AccessDenied".

(** Both listings are refused, the role listing on its second page. *)
Definition env_denied : Env := {|
  terraform_workspace_show := terraform_workspace_show env1;
  terraform_console := terraform_console env1;
  terraform_import := terraform_import env1;
  boto3_Session := boto3_Session env1;
  session_client := session_client env1;
  s3_list_buckets := fun _ => inl access_denied;
  iam_list_roles := fun _ =>
    [inr ["admin"; "dev"]; inl access_denied; inr [role]]
|}.

(** The [terraform] executable is missing. *)
Definition env_no_terraform : Env := {|
  terraform_workspace_show := fun _ =>
    ProcRaise (PyException "FileNotFoundError");
  terraform_console := fun _ _ =>
    ProcRaise (PyException "FileNotFoundError");
  terraform_import := fun _ _ _ =>
    ProcRaise (PyException "FileNotFoundError");
  boto3_Session := boto3_Session env1;
  session_client := session_client env1;
  s3_list_buckets := s3_list_buckets env1;
  iam_list_roles := iam_list_roles env1
|}.

(** The import flag is set to false. *)
Definition env_flag_false : Env := {|
  terraform_workspace_show := terraform_workspace_show env1;
  terraform_console := fun _ input =>
    if String.eqb input ("var.project_name" ++ newline)
    then ok (String double_quote ("acme" ++ String double_quote newline))
    else ok ("false" ++ newline);
  terraform_import := terraform_import env1;
  boto3_Session := boto3_Session env1;
  session_client := session_client env1;
  s3_list_buckets := s3_list_buckets env1;
  iam_list_roles := iam_list_roles env1
|}.

Definition self1 : TerraformImporter := {|
  profile := "mfa";
  workspace := "prod";
  project_name := "acme";
  resource_prefix := "acme-state-files-prod"
|}.

Definition plan3 : list (string * string) :=
  [ ("aws_s3_bucket.terraform_state", bucket);
    ("aws_s3_bucket_versioning.terraform_state_versioning", bucket);
    ("aws_iam_role.terraform_state_role", role) ].

(** The working directory holds no initialised configuration. *)
Definition env_no_workspace : Env := {|
  terraform_workspace_show := fun _ =>
    ProcExit 1 EmptyString "Error: No configuration files";
  terraform_console := terraform_console env1;
  terraform_import := terraform_import env1;
  boto3_Session := boto3_Session env1;
  session_client := session_client env1;
  s3_list_buckets := s3_list_buckets env1;
  iam_list_roles := iam_list_roles env1
|}.

Definition profile_not_found : py_exn := PyException "ProfileNotFound".

(** The credential profile does not exist. *)
Definition env_no_profile : Env := {|
  terraform_workspace_show := terraform_workspace_show env1;
  terraform_console := terraform_console env1;
  terraform_import := terraform_import env1;
  boto3_Session := fun _ _ => Some profile_not_found;
  session_client := session_client env1;
  s3_list_buckets := s3_list_buckets env1;
  iam_list_roles := iam_list_roles env1
|}.

(** The operator interrupts the second import. *)
Definition env_interrupt : Env := {|
  terraform_workspace_show := terraform_workspace_show env1;
  terraform_console := terraform_console env1;
  terraform_import := fun _ a _ =>
    if String.eqb a "aws_s3_bucket_versioning.terraform_state_versioning"
    then ProcRaise KeyboardInterrupt
    else ok "Import successful!";
  boto3_Session := boto3_Session env1;
  session_client := session_client env1;
  s3_list_buckets := s3_list_buckets env1;
  iam_list_roles := iam_list_roles env1
|}.

(** The operator interrupts the bucket listing. *)
Definition env_interrupt_listing : Env := {|
  terraform_workspace_show := terraform_workspace_show env1;
  terraform_console := terraform_console env1;
  terraform_import := terraform_import env1;
  boto3_Session := boto3_Session env1;
  session_client := session_client env1;
  s3_list_buckets := fun _ => inl KeyboardInterrupt;
  iam_list_roles := iam_list_roles env1
|}.

(** Nothing carries the prefix. *)
Definition env_nothing : Env := {|
  terraform_workspace_show := terraform_workspace_show env1;
  terraform_console := terraform_console env1;
  terraform_import := terraform_import env1;
  boto3_Session := boto3_Session env1;
  session_client := session_client env1;
  s3_list_buckets := fun _ => inr ["logs"];
  iam_list_roles := fun _ => [inr ["admin"; "dev"]; inr ["x"]]
|}.

(** The role is on the first page; the second page cannot be fetched. *)
Definition env_role_first_page : Env := {|
  terraform_workspace_show := terraform_workspace_show env1;
  terraform_console := terraform_console env1;
  terraform_import := terraform_import env1;
  boto3_Session := boto3_Session env1;
  session_client := session_client env1;
  s3_list_buckets := s3_list_buckets env1;
  iam_list_roles := fun _ =>
    [inr ["admin"; role; "acme-state-files-prod-other"];
     inl access_denied]
|}.

(** The project name is set to the empty string. *)
Definition env_empty_project : Env := {|
  terraform_workspace_show := terraform_workspace_show env1;
  terraform_console := fun _ _ =>
    ok (String double_quote (String double_quote newline));
  terraform_import := terraform_import env1;
  boto3_Session := boto3_Session env1;
  session_client := session_client env1;
  s3_list_buckets := s3_list_buckets env1;
  iam_list_roles := iam_list_roles env1
|}.

(** The tool ends its lines with CR LF. *)
Definition env_crlf : Env := {|
  terraform_workspace_show := fun _ =>
    ok ("prod" ++ String PyStr.CR newline);
  terraform_console := fun _ input =>
    if String.eqb input ("var.project_name" ++ newline)
    then ok (String double_quote
               ("acme" ++ String double_quote (String PyStr.CR newline)))
    else ok ("true" ++ String PyStr.CR newline);
  terraform_import := terraform_import env1;
  boto3_Session := boto3_Session env1;
  session_client := session_client env1;
  s3_list_buckets := s3_list_buckets env1;
  iam_list_roles := iam_list_roles env1
|}.

Definition args_apply : Args :=
  {| arg_dry_run := false; arg_workspace := None; arg_profile := "mfa" |}.

Definition args_dry : Args :=
  {| arg_dry_run := true; arg_workspace := Some "prod";
     arg_profile := "mfa" |}.

End Scenario.

(** * Properties *)

Local Open Scope list_scope.

(** ** Tactics and basic facts *)

Ltac unfold_monad :=
  unfold bind, ret, raise, print, try_except, subprocess_run, boto_call,
    boto_fetch, fetch_page in *.

Ltac inv H := inversion H; subst; clear H.

Lemma startswith_truthy (name prefix : string) :
  PyStr.startswith name prefix = true ->
  PyStr.truthy prefix = true ->
  PyStr.truthy name = true.
Proof.
  unfold PyStr.startswith.
  destruct prefix as [|c p]; [discriminate|].
  destruct name as [|d n]; simpl; [discriminate | reflexivity].
Qed.

Lemma prefix_invariant_truthy (self : TerraformImporter) :
  prefix_invariant self -> PyStr.truthy (resource_prefix self) = true.
Proof.
  unfold prefix_invariant. intros ->.
  destruct (project_name self); reflexivity.
Qed.

(** ** Stripping and newline translation *)

Lemma string_app_assoc (s t u : string) :
  ((s ++ t) ++ u)%string = (s ++ (t ++ u))%string.
Proof. induction s as [|c s IH]; simpl; [reflexivity | now rewrite IH]. Qed.

Lemma string_app_nil_r (s : string) : (s ++ EmptyString)%string = s.
Proof. induction s as [|c s IH]; simpl; [reflexivity | now rewrite IH]. Qed.

Lemma rev_append_app (s : string) : forall acc,
  PyStr.rev_append s acc = (PyStr.rev s ++ acc)%string.
Proof.
  unfold PyStr.rev.
  induction s as [|c s IH]; intros acc; simpl; [reflexivity|].
  rewrite IH, (IH (String c EmptyString)), string_app_assoc. reflexivity.
Qed.

Lemma rev_cons (c : ascii) (s : string) :
  PyStr.rev (String c s) = (PyStr.rev s ++ String c EmptyString)%string.
Proof. unfold PyStr.rev at 1. simpl. apply rev_append_app. Qed.

Lemma rev_app (s t : string) :
  PyStr.rev (s ++ t) = (PyStr.rev t ++ PyStr.rev s)%string.
Proof.
  induction s as [|c s IH]; simpl.
  - rewrite string_app_nil_r. reflexivity.
  - rewrite !rev_cons, IH, string_app_assoc. reflexivity.
Qed.

Lemma rev_involutive (s : string) : PyStr.rev (PyStr.rev s) = s.
Proof.
  induction s as [|c s IH]; [reflexivity|].
  rewrite rev_cons, rev_app, IH. reflexivity.
Qed.

(** Stripping on the right looks at the last character only. *)
Lemma rstrip_with_snoc (p : ascii -> bool) (s : string) (c : ascii) :
  PyStr.rstrip_with p (s ++ String c EmptyString)
  = if p c then PyStr.rstrip_with p s
    else (s ++ String c EmptyString)%string.
Proof.
  unfold PyStr.rstrip_with. rewrite rev_app.
  change (PyStr.rev (String c EmptyString)) with (String c EmptyString).
  cbn [append PyStr.lstrip_with].
  destruct (p c); [reflexivity|].
  rewrite rev_cons, rev_involutive. reflexivity.
Qed.

(** A string whose first and last characters escape [p] is left alone. *)
Lemma strip_with_fixed (p : ascii -> bool) (c d : ascii) (s n m : string) :
  s = String c n -> s = (m ++ String d EmptyString)%string ->
  p c = false -> p d = false ->
  PyStr.strip_with p s = s.
Proof.
  intros Hc Hd Pc Pd. unfold PyStr.strip_with.
  assert (L : PyStr.lstrip_with p s = s) by (rewrite Hc; simpl; now rewrite Pc).
  rewrite L. rewrite Hd at 1. rewrite rstrip_with_snoc, Pd. symmetry; exact Hd.
Qed.

Lemma lstrip_with_padding (p : ascii -> bool) (pre s : string) :
  string_forall p pre = true ->
  PyStr.lstrip_with p (pre ++ s) = PyStr.lstrip_with p s.
Proof.
  induction pre as [|c pre IH]; simpl; [reflexivity|].
  intros H. apply andb_prop in H as [Hc Hpre]. rewrite Hc. apply IH, Hpre.
Qed.

Lemma string_forall_app (p : ascii -> bool) (s t : string) :
  string_forall p (s ++ t) = string_forall p s && string_forall p t.
Proof.
  induction s as [|c s IH]; simpl; [reflexivity|].
  rewrite IH, andb_assoc. reflexivity.
Qed.

Lemma string_forall_rev (p : ascii -> bool) (s : string) :
  string_forall p (PyStr.rev s) = string_forall p s.
Proof.
  induction s as [|c s IH]; [reflexivity|].
  rewrite rev_cons, string_forall_app, IH. simpl.
  rewrite andb_true_r. apply andb_comm.
Qed.

Lemma rstrip_with_padding (p : ascii -> bool) (s post : string) :
  string_forall p post = true ->
  PyStr.rstrip_with p (s ++ post) = PyStr.rstrip_with p s.
Proof.
  intros H. unfold PyStr.rstrip_with.
  rewrite rev_app, lstrip_with_padding; [reflexivity|].
  rewrite string_forall_rev. exact H.
Qed.

(** Padding made of [p]-characters is stripped from a core that begins and
    ends outside [p], and nothing else is. *)
Lemma strip_with_padding (p : ascii -> bool) (pre s post : string)
    (c d : ascii) (n m : string) :
  string_forall p pre = true -> string_forall p post = true ->
  s = String c n -> s = (m ++ String d EmptyString)%string ->
  p c = false -> p d = false ->
  PyStr.strip_with p (pre ++ s ++ post) = s.
Proof.
  intros Hpre Hpost Hc Hd Pc Pd. unfold PyStr.strip_with.
  rewrite lstrip_with_padding by exact Hpre.
  assert (L : PyStr.lstrip_with p (s ++ post) = (s ++ post)%string)
    by (rewrite Hc; simpl; now rewrite Pc).
  rewrite L, rstrip_with_padding by exact Hpost.
  rewrite Hd at 1. rewrite rstrip_with_snoc, Pd. symmetry; exact Hd.
Qed.

Lemma lower_true_not_space (c : ascii) (t : ascii) :
  In t ["t"%char; "e"%char] -> PyStr.lower_char c = t ->
  PyStr.isspace c = false.
Proof.
  intros Ht. destruct c as [[] [] [] [] [] [] [] []];
    vm_compute; try reflexivity;
    intros E; destruct Ht as [<-|[<-|[]]]; discriminate.
Qed.

Lemma lstrip_with_all (p : ascii -> bool) (s : string) :
  string_forall p s = true -> PyStr.lstrip_with p s = EmptyString.
Proof.
  induction s as [|c s IH]; simpl; [reflexivity|].
  intros H. apply andb_prop in H as [Hc Hs]. rewrite Hc. apply IH, Hs.
Qed.

Lemma strip_with_all (p : ascii -> bool) (s : string) :
  string_forall p s = true -> PyStr.strip_with p s = EmptyString.
Proof.
  intros H. unfold PyStr.strip_with. rewrite lstrip_with_all by exact H.
  reflexivity.
Qed.

Lemma string_snoc (c : ascii) (s : string) :
  exists m d, String c s = (m ++ String d EmptyString)%string.
Proof.
  revert c. induction s as [|c' s IH]; intros c.
  - exists EmptyString, c. reflexivity.
  - destruct (IH c') as (m & d & E). exists (String c m), d.
    simpl. rewrite E. reflexivity.
Qed.

Lemma is_quote_not_space (c : ascii) :
  is_quote c = true -> PyStr.isspace c = false.
Proof.
  unfold is_quote. simpl. rewrite orb_false_r. intros H.
  apply Ascii.eqb_eq in H. subst c. reflexivity.
Qed.

Lemma string_forall_impl (p q : ascii -> bool) (s : string) :
  (forall c, p c = true -> q c = true) ->
  string_forall p s = true -> string_forall q s = true.
Proof.
  intros Hpq. induction s as [|c s IH]; simpl; [reflexivity|].
  intros H. apply andb_prop in H as [Hc Hs].
  rewrite (Hpq c Hc), (IH Hs). reflexivity.
Qed.

(** Translation goes through a concatenation, the second part being read
    with the knowledge of how the first part ended. *)
Lemma translate_newlines_app (s t : string) : forall b,
  PyStr.translate_newlines b (s ++ t)
  = (PyStr.translate_newlines b s
     ++ PyStr.translate_newlines (ends_cr b s) t)%string.
Proof.
  induction s as [|c s IH]; intros b; simpl; [reflexivity|].
  destruct (Ascii.eqb c PyStr.CR); simpl.
  - rewrite IH. reflexivity.
  - destruct (Ascii.eqb c PyStr.LF && b); simpl; rewrite IH; reflexivity.
Qed.

Lemma translate_newlines_space (s : string) : forall b,
  string_forall PyStr.isspace s = true ->
  string_forall PyStr.isspace (PyStr.translate_newlines b s) = true.
Proof.
  induction s as [|c s IH]; intros b H; simpl; [reflexivity|].
  simpl in H. apply andb_prop in H as [Hc Hs].
  destruct (Ascii.eqb c PyStr.CR); simpl.
  - apply IH, Hs.
  - destruct (Ascii.eqb c PyStr.LF && b); simpl.
    + apply IH, Hs.
    + rewrite Hc. apply IH, Hs.
Qed.

(** A character that is neither CR nor LF is delivered as it is. *)
Lemma translate_newlines_cons (c : ascii) (n : string) (b : bool) :
  Ascii.eqb c PyStr.CR = false -> Ascii.eqb c PyStr.LF = false ->
  PyStr.translate_newlines b (String c n)
  = String c (PyStr.translate_newlines false n).
Proof. intros H1 H2. simpl. rewrite H1, H2. reflexivity. Qed.

Lemma not_space_not_newline (c : ascii) :
  PyStr.isspace c = false ->
  Ascii.eqb c PyStr.CR = false /\ Ascii.eqb c PyStr.LF = false.
Proof.
  intros H. split.
  - destruct (Ascii.eqb_spec c PyStr.CR) as [->|]; [discriminate | reflexivity].
  - destruct (Ascii.eqb_spec c PyStr.LF) as [->|]; [discriminate | reflexivity].
Qed.

(** Text without a CR is not changed by the translation. *)
Lemma universal_newlines_no_cr (s : string) :
  string_forall (fun c => negb (Ascii.eqb c PyStr.CR)) s = true ->
  PyStr.universal_newlines s = s.
Proof.
  unfold PyStr.universal_newlines.
  induction s as [|c s IH]; simpl; [reflexivity|].
  intros H. apply andb_prop in H as [Hc Hs].
  apply negb_true_iff in Hc. rewrite Hc, andb_false_r, (IH Hs). reflexivity.
Qed.

(** Translated text without an LF had no line end to translate. *)
Lemma universal_newlines_no_lf (s : string) :
  string_forall (fun c => negb (Ascii.eqb c PyStr.LF))
    (PyStr.universal_newlines s) = true ->
  PyStr.universal_newlines s = s.
Proof.
  unfold PyStr.universal_newlines.
  induction s as [|c s IH]; simpl; [reflexivity|].
  destruct (Ascii.eqb c PyStr.CR); simpl; [discriminate|].
  rewrite andb_false_r. simpl. intros H. apply andb_prop in H as [_ Hs].
  rewrite (IH Hs). reflexivity.
Qed.

Lemma lstrip_with_split (p : ascii -> bool) (s : string) :
  exists pre,
    s = (pre ++ PyStr.lstrip_with p s)%string
    /\ string_forall p pre = true
    /\ (PyStr.lstrip_with p s = EmptyString
        \/ exists c n, PyStr.lstrip_with p s = String c n /\ p c = false).
Proof.
  induction s as [|c s (pre & E & Hpre & Hhead)]; simpl.
  - exists EmptyString. repeat split. left. reflexivity.
  - destruct (p c) eqn:Pc.
    + exists (String c pre). simpl. rewrite <- E, Pc, Hpre.
      repeat split. exact Hhead.
    + exists EmptyString. repeat split. right. exists c, s. split; auto.
Qed.

(** What stripping leaves: nothing, of a string made of [p]-characters
    only, or a core that begins and ends outside [p], between two paddings
    of [p]-characters. *)
Lemma strip_with_split (p : ascii -> bool) (s : string) :
  (PyStr.strip_with p s = EmptyString /\ string_forall p s = true)
  \/ exists pre post c n m d,
       s = (pre ++ PyStr.strip_with p s ++ post)%string
       /\ string_forall p pre = true /\ string_forall p post = true
       /\ PyStr.strip_with p s = String c n
       /\ PyStr.strip_with p s = (m ++ String d EmptyString)%string
       /\ p c = false /\ p d = false.
Proof.
  unfold PyStr.strip_with.
  destruct (lstrip_with_split p s) as (pre & E & Hpre & [Et | (c & n & Et & Pc)]).
  - left. rewrite Et. split; [reflexivity|].
    rewrite E, Et, string_app_nil_r. exact Hpre.
  - right. remember (PyStr.lstrip_with p s) as t eqn:Dt.
    unfold PyStr.rstrip_with.
    destruct (lstrip_with_split p (PyStr.rev t))
      as (post' & E' & Hpost' & [Eu | (d & n2 & Eu & Pd)]).
    + exfalso. rewrite Eu, string_app_nil_r in E'.
      assert (A : string_forall p t = true)
        by (rewrite <- string_forall_rev, E'; exact Hpost').
      rewrite Et in A. simpl in A. rewrite Pc in A. discriminate.
    + remember (PyStr.lstrip_with p (PyStr.rev t)) as u eqn:Du.
      assert (T : t = (PyStr.rev u ++ PyStr.rev post')%string).
      { rewrite <- (rev_involutive t), E', rev_app. reflexivity. }
      assert (U : PyStr.rev u
                  = (PyStr.rev n2 ++ String d EmptyString)%string)
        by (rewrite Eu; apply rev_cons).
      assert (H : exists n', PyStr.rev u = String c n').
      { rewrite U. rewrite U, Et in T.
        destruct (PyStr.rev n2) as [|c' r]; simpl in T |- *;
          injection T as -> _; eexists; reflexivity. }
      destruct H as [n' Hn'].
      exists pre, (PyStr.rev post'), c, n', (PyStr.rev n2), d.
      split; [rewrite <- T; exact E|].
      split; [exact Hpre|].
      split; [rewrite string_forall_rev; exact Hpost'|].
      split; [exact Hn'|]. split; [exact U|]. split; assumption.
Qed.

(** Whitespace is stripped from translated text as from the text itself:
    the line ends around the core vanish either way, those inside it are
    translated. *)
Lemma strip_universal_newlines (s : string) :
  PyStr.strip (PyStr.universal_newlines s)
  = PyStr.universal_newlines (PyStr.strip s).
Proof.
  unfold PyStr.strip, PyStr.universal_newlines.
  destruct (strip_with_split PyStr.isspace s)
    as [[E A] | (pre & post & c & n & m & d & E & Hpre & Hpost & Ec & Ed & Pc & Pd)].
  - rewrite E. simpl. apply strip_with_all, translate_newlines_space, A.
  - set (core := PyStr.strip_with PyStr.isspace s) in *.
    destruct (not_space_not_newline c Pc) as [C1 C2].
    destruct (not_space_not_newline d Pd) as [D1 D2].
    assert (Head : forall b t,
              PyStr.translate_newlines b (core ++ t)
              = PyStr.translate_newlines false (core ++ t)).
    { intros b t. rewrite Ec. simpl append.
      rewrite !translate_newlines_cons by assumption. reflexivity. }
    rewrite E at 1.
    rewrite translate_newlines_app, Head, translate_newlines_app.
    apply (strip_with_padding PyStr.isspace _ _ _ c d
             (PyStr.translate_newlines false n)
             (PyStr.translate_newlines false m)).
    + apply translate_newlines_space, Hpre.
    + apply translate_newlines_space, Hpost.
    + rewrite Ec. apply translate_newlines_cons; assumption.
    + rewrite Ed, translate_newlines_app.
      rewrite translate_newlines_cons by assumption. reflexivity.
    + exact Pc.
    + exact Pd.
Qed.

Lemma lower_char_newline (c t : ascii) :
  In t ["t"%char; "r"%char; "u"%char; "e"%char] ->
  PyStr.lower_char c = t ->
  Ascii.eqb c PyStr.CR = false /\ Ascii.eqb c PyStr.LF = false.
Proof.
  intros Ht E. split.
  - destruct (Ascii.eqb_spec c PyStr.CR) as [->|]; [|reflexivity].
    vm_compute in E. subst t. simpl in Ht. intuition discriminate.
  - destruct (Ascii.eqb_spec c PyStr.LF) as [->|]; [|reflexivity].
    vm_compute in E. subst t. simpl in Ht. intuition discriminate.
Qed.

(** A word that reads [true] in lower case holds no line end. *)
Lemma lower_true_no_newline (s : string) :
  PyStr.lower s = "true"%string ->
  string_forall (fun c => negb (Ascii.eqb c PyStr.CR)) s = true
  /\ string_forall (fun c => negb (Ascii.eqb c PyStr.LF)) s = true.
Proof.
  intros H.
  destruct s as [|c1 [|c2 [|c3 [|c4 [|c5 rest]]]]]; try discriminate.
  simpl in H. inversion H as [[L1 L2 L3 L4]].
  destruct (lower_char_newline c1 "t") as [A1 B1]; [simpl; tauto | exact L1|].
  destruct (lower_char_newline c2 "r") as [A2 B2]; [simpl; tauto | exact L2|].
  destruct (lower_char_newline c3 "u") as [A3 B3]; [simpl; tauto | exact L3|].
  destruct (lower_char_newline c4 "e") as [A4 B4]; [simpl; tauto | exact L4|].
  simpl. rewrite A1, A2, A3, A4, B1, B2, B3, B4. split; reflexivity.
Qed.

(** The comparison with [true] gives the same answer on the translated
    output as on the output itself. *)
Lemma flag_test_universal_newlines (out : string) :
  String.eqb (PyStr.lower (PyStr.strip (PyStr.universal_newlines out))) "true"
  = String.eqb (PyStr.lower (PyStr.strip out)) "true".
Proof.
  rewrite strip_universal_newlines.
  set (core := PyStr.strip out).
  destruct (String.eqb (PyStr.lower core) "true") eqn:E1.
  - apply String.eqb_eq in E1.
    rewrite (universal_newlines_no_cr core)
      by (apply (lower_true_no_newline core E1)).
    apply String.eqb_eq, E1.
  - destruct (String.eqb (PyStr.lower (PyStr.universal_newlines core)) "true")
      eqn:E2; [|reflexivity].
    apply String.eqb_eq in E2.
    rewrite (universal_newlines_no_lf core) in E2
      by (apply (lower_true_no_newline _ E2)).
    apply String.eqb_eq in E2. rewrite E2 in E1. discriminate.
Qed.

(** The translation of a string that begins outside [p] begins outside
    [p], when LF is outside [p]. *)
Lemma universal_newlines_first (p : ascii -> bool) (c : ascii) (n : string) :
  p PyStr.LF = false -> p c = false ->
  exists c' n',
    PyStr.universal_newlines (String c n) = String c' n' /\ p c' = false.
Proof.
  intros Plf Pc. unfold PyStr.universal_newlines. simpl.
  destruct (Ascii.eqb c PyStr.CR); [eexists; eexists; split; eauto|].
  rewrite andb_false_r. eexists; eexists; split; eauto.
Qed.

(** The translation of a string that ends outside [p] ends outside [p],
    when LF is outside [p]; it is empty only for a lone LF that completes
    a CR LF begun before. *)
Lemma translate_newlines_last (p : ascii -> bool) (d : ascii) (m : string) :
  p PyStr.LF = false -> p d = false ->
  forall b,
    (PyStr.translate_newlines b (m ++ String d EmptyString) = EmptyString
     /\ b = true)
    \/ exists m' d',
         PyStr.translate_newlines b (m ++ String d EmptyString)
         = (m' ++ String d' EmptyString)%string
         /\ p d' = false.
Proof.
  intros Plf Pd. induction m as [|c m IH]; intros b; simpl.
  - destruct (Ascii.eqb d PyStr.CR).
    + right. exists EmptyString, PyStr.LF. split; [reflexivity | exact Plf].
    + destruct (Ascii.eqb d PyStr.LF && b) eqn:E.
      * left. apply andb_prop in E. split; [reflexivity | apply E].
      * right. exists EmptyString, d. split; [reflexivity | exact Pd].
  - destruct (Ascii.eqb c PyStr.CR).
    + right. destruct (IH true) as [[E _] | (m' & d' & E & Pd')].
      * rewrite E. exists EmptyString, PyStr.LF.
        split; [reflexivity | exact Plf].
      * rewrite E. exists (String PyStr.LF m'), d'.
        split; [reflexivity | exact Pd'].
    + destruct (Ascii.eqb c PyStr.LF && b).
      * destruct (IH false) as [[_ F] | H]; [discriminate | right; exact H].
      * right. destruct (IH false) as [[_ F] | (m' & d' & E & Pd')];
          [discriminate|].
        rewrite E. exists (String c m'), d'. split; [reflexivity | exact Pd'].
Qed.

(** ** Discovery results *)

(** The name loop returns the first name that starts with the prefix. *)
Lemma scan_names_find found prefix names otherwise w :
  scan_names found prefix names otherwise w
  = match find (fun n => PyStr.startswith n prefix) names with
    | Some n =>
        (Ok (Some n), {| calls := calls w; stdout := stdout w ++ [found n] |})
    | None => otherwise w
    end.
Proof.
  induction names as [|n names IH]; simpl; [reflexivity|].
  destruct (PyStr.startswith n prefix); [reflexivity | apply IH].
Qed.

Lemma scan_names_some found prefix names w n w' :
  scan_names found prefix names (ret None) w = (Ok (Some n), w') ->
  PyStr.startswith n prefix = true.
Proof.
  rewrite scan_names_find.
  destruct (find _ names) as [m|] eqn:F; unfold ret; intros H; inv H.
  apply find_some in F. apply F.
Qed.

Lemma scan_pages_some prefix pages : forall w n w',
  scan_pages prefix pages w = (Ok (Some n), w') ->
  PyStr.startswith n prefix = true.
Proof.
  induction pages as [|page pages IH]; intros w n w' H; simpl in H.
  - inv H.
  - unfold_monad. destruct page as [e|roles]; simpl in H; [inv H|].
    rewrite scan_names_find in H.
    destruct (find _ roles) as [m|] eqn:F.
    + inv H. apply find_some in F. apply F.
    + eapply IH, H.
Qed.

Lemma discover_s3_bucket_some env self w b w' :
  discover_s3_bucket env self w = (Ok (Some b), w') ->
  PyStr.startswith b (resource_prefix self) = true.
Proof.
  unfold discover_s3_bucket. unfold_monad.
  destruct (s3_list_buckets env (calls w)) as [e|buckets].
  - destruct (is_Exception e); intros H; inv H.
  - destruct (scan_names _ _ buckets _ _) as [[o|e] w1] eqn:S.
    + intros H; inv H. eapply scan_names_some, S.
    + destruct (is_Exception e); intros H; inv H.
Qed.

Lemma discover_iam_role_some env self w r w' :
  discover_iam_role env self w = (Ok (Some r), w') ->
  PyStr.startswith r (resource_prefix self) = true.
Proof.
  unfold discover_iam_role. unfold_monad.
  destruct (scan_pages _ _ _) as [[o|e] w1] eqn:S.
  - intros H; inv H. eapply scan_pages_some, S.
  - destruct (is_Exception e); intros H; inv H.
Qed.

(** ** The import plan *)

(** C1: when discovery returns a bucket id and a role id,
    [get_import_commands] returns exactly seven operations in the fixed
    order: bucket, versioning, encryption, public-access block and
    lifecycle, all bound to the bucket id, then the role bound to the role
    id, then the role policy bound to the role id followed by
    [:terraform-state-files-policy]. *)
Theorem get_import_commands_both_found
    (env : Env) (self : TerraformImporter) (w w1 w2 : World)
    (bucket role : string) :
  prefix_invariant self ->
  discover_s3_bucket env self w = (Ok (Some bucket), w1) ->
  discover_iam_role env self w1 = (Ok (Some role), w2) ->
  get_import_commands env self w
  = (Ok [ ("aws_s3_bucket.terraform_state", bucket);
          ("aws_s3_bucket_versioning.terraform_state_versioning", bucket);
          ("aws_s3_bucket_server_side_encryption_configuration.terraform_state_encryption",
           bucket);
          ("aws_s3_bucket_public_access_block.terraform_state_pab", bucket);
          ("aws_s3_bucket_lifecycle_configuration.terraform_state_lifecycle",
           bucket);
          ("aws_iam_role.terraform_state_role", role);
          ("aws_iam_role_policy.terraform_state_policy",
           (role ++ ":terraform-state-files-policy")%string) ],
     w2).
Proof.
  intros Inv Hb Hr.
  pose proof (prefix_invariant_truthy _ Inv) as Hp.
  pose proof (startswith_truthy _ _ (discover_s3_bucket_some _ _ _ _ _ Hb) Hp)
    as Tb.
  pose proof (startswith_truthy _ _ (discover_iam_role_some _ _ _ _ _ Hr) Hp)
    as Tr.
  unfold get_import_commands, bind. rewrite Hb, Hr. simpl.
  rewrite Tb, Tr. reflexivity.
Qed.

Lemma get_import_commands_both_found_witness :
  prefix_invariant Scenario.self1
  /\ get_import_commands Scenario.env1 Scenario.self1 world0
     = (Ok [ ("aws_s3_bucket.terraform_state", "acme-state-files-prod-a1b2");
             ("aws_s3_bucket_versioning.terraform_state_versioning",
              "acme-state-files-prod-a1b2");
             ("aws_s3_bucket_server_side_encryption_configuration.terraform_state_encryption",
              "acme-state-files-prod-a1b2");
             ("aws_s3_bucket_public_access_block.terraform_state_pab",
              "acme-state-files-prod-a1b2");
             ("aws_s3_bucket_lifecycle_configuration.terraform_state_lifecycle",
              "acme-state-files-prod-a1b2");
             ("aws_iam_role.terraform_state_role",
              "acme-state-files-prod-role");
             ("aws_iam_role_policy.terraform_state_policy",
              "acme-state-files-prod-role:terraform-state-files-policy") ],
        snd (discover_iam_role Scenario.env1 Scenario.self1
               (snd (discover_s3_bucket Scenario.env1 Scenario.self1
                       world0)))).
Proof.
  split; [reflexivity|].
  apply (get_import_commands_both_found Scenario.env1 Scenario.self1 world0
           (snd (discover_s3_bucket Scenario.env1 Scenario.self1 world0))
           _ Scenario.bucket Scenario.role);
    reflexivity.
Defined.

(** C2: whenever discovery leaves the bucket, the role or both absent,
    [get_import_commands] returns the empty plan; a plan that is not empty
    comes from a discovered bucket together with a discovered role, and is
    then the whole list of seven operations, never a part of it. *)
Theorem get_import_commands_partial_discovery
    (env : Env) (self : TerraformImporter) (w w1 w2 : World)
    (s3_bucket iam_role : option string) :
  discover_s3_bucket env self w = (Ok s3_bucket, w1) ->
  discover_iam_role env self w1 = (Ok iam_role, w2) ->
  exists plan w',
    get_import_commands env self w = (Ok plan, w')
    /\ (s3_bucket = None \/ iam_role = None -> plan = [])
    /\ (plan <> [] ->
        (exists b r, s3_bucket = Some b /\ iam_role = Some r)
        /\ length plan = 7).
Proof.
  intros Hb Hr. unfold get_import_commands, bind. rewrite Hb, Hr.
  destruct s3_bucket as [b|]; simpl.
  - destruct (PyStr.truthy b); simpl.
    + destruct iam_role as [r|]; simpl.
      * destruct (PyStr.truthy r); simpl; unfold_monad;
          eexists; eexists; (split; [reflexivity|]); split.
        -- intros [H|H]; discriminate.
        -- intros _. split; [eauto | reflexivity].
        -- reflexivity.
        -- intros H; contradiction.
      * unfold_monad. eexists; eexists; (split; [reflexivity|]); split;
          [reflexivity | intros H; contradiction].
    + unfold_monad. eexists; eexists; (split; [reflexivity|]); split;
        [reflexivity | intros H; contradiction].
  - unfold_monad. eexists; eexists; (split; [reflexivity|]); split;
      [reflexivity | intros H; contradiction].
Qed.

Lemma get_import_commands_partial_discovery_witness :
  fst (discover_s3_bucket Scenario.env_no_role Scenario.self1 world0)
  = Ok (Some Scenario.bucket)
  /\ exists w', get_import_commands Scenario.env_no_role Scenario.self1 world0
               = (Ok [], w').
Proof.
  split; [reflexivity|].
  destruct (get_import_commands_partial_discovery
              Scenario.env_no_role Scenario.self1 world0
              (snd (discover_s3_bucket Scenario.env_no_role Scenario.self1
                      world0))
              (snd (discover_iam_role Scenario.env_no_role Scenario.self1
                      (snd (discover_s3_bucket Scenario.env_no_role
                              Scenario.self1 world0))))
              (Some Scenario.bucket) None eq_refl eq_refl)
    as (plan & w' & Hrun & Hempty & _).
  exists w'. rewrite Hrun, (Hempty (or_intror eq_refl)). reflexivity.
Defined.

(** ** The constructor *)

Lemma init_prefix_invariant env profile workspace w self w' :
  __init__ env profile workspace w = (Ok self, w') -> prefix_invariant self.
Proof.
  unfold __init__, bind, ret.
  repeat match goal with
         | |- context [match ?m ?x with _ => _ end] =>
             destruct (m x) as [[?|?] ?]
         end;
    intros H; inv H; reflexivity.
Qed.

(** C6: the resource prefix an importer is built with is a function of its
    project name and its workspace alone: it is always
    [{project}-state-files-{workspace}], so two importers, built in any two
    environments, that agree on project name and workspace agree on the
    prefix. *)
Theorem resource_prefix_deterministic
    (env1 env2 : Env) (profile1 profile2 : string)
    (workspace1 workspace2 : option string) (w1 w1' w2 w2' : World)
    (self1 self2 : TerraformImporter) :
  __init__ env1 profile1 workspace1 w1 = (Ok self1, w1') ->
  __init__ env2 profile2 workspace2 w2 = (Ok self2, w2') ->
  resource_prefix self1
  = (project_name self1 ++ "-state-files-" ++ workspace self1)%string
  /\ (project_name self1 = project_name self2 ->
      workspace self1 = workspace self2 ->
      resource_prefix self1 = resource_prefix self2).
Proof.
  intros H1 H2.
  apply init_prefix_invariant in H1. apply init_prefix_invariant in H2.
  unfold prefix_invariant in *. split; [exact H1|].
  intros Hp Hw. rewrite H1, H2, Hp, Hw. reflexivity.
Qed.

Lemma resource_prefix_deterministic_witness :
  __init__ Scenario.env1 "mfa" None world0
  = (Ok Scenario.self1, snd (__init__ Scenario.env1 "mfa" None world0))
  /\ resource_prefix Scenario.self1 = "acme-state-files-prod"
  /\ resource_prefix Scenario.self1
     = resource_prefix
         {| profile := "other"; workspace := "prod"; project_name := "acme";
            resource_prefix := "acme-state-files-prod" |}.
Proof.
  split; [reflexivity|].
  destruct (resource_prefix_deterministic
              Scenario.env1 Scenario.env_no_role "mfa" "other"
              None (Some "prod")
              world0 (snd (__init__ Scenario.env1 "mfa" None world0))
              world0
              (snd (__init__ Scenario.env_no_role "other" (Some "prod")
                      world0))
              Scenario.self1
              {| profile := "other"; workspace := "prod";
                 project_name := "acme";
                 resource_prefix := "acme-state-files-prod" |}
              eq_refl eq_refl) as [Hform Hsame].
  split; [exact Hform | apply Hsame; reflexivity].
Defined.

Lemma get_current_workspace_calls env w :
  calls (snd (_get_current_workspace env w)) = calls w ++ [CallWorkspaceShow].
Proof.
  unfold _get_current_workspace. unfold_monad.
  destruct (terraform_workspace_show env (calls w)) as [code out err|e].
  - destruct (code =? 0)%Z; reflexivity.
  - destruct (is_CalledProcessError e); reflexivity.
Qed.

Lemma get_project_name_calls env w :
  calls (snd (_get_project_name env w))
  = calls w ++ [CallConsole ("var.project_name" ++ newline)%string].
Proof.
  unfold _get_project_name. unfold_monad.
  destruct (terraform_console env (calls w) _) as [code out err|e].
  - destruct (code =? 0)%Z; reflexivity.
  - reflexivity.
Qed.

(** The workspace query returns what the tool printed on a zero exit,
    translated and stripped, and returns in no other case. *)
Lemma get_current_workspace_ok env w ws w1 :
  _get_current_workspace env w = (Ok ws, w1) ->
  exists out err,
    terraform_workspace_show env (calls w) = ProcExit 0 out err
    /\ ws = PyStr.strip (PyStr.universal_newlines out).
Proof.
  unfold _get_current_workspace. unfold_monad.
  destruct (terraform_workspace_show env (calls w)) as [code out err|e].
  - destruct (code =? 0)%Z eqn:E; simpl; intros H; inv H.
    apply Z.eqb_eq in E. subst code. exists out, err. split; reflexivity.
  - destruct (is_CalledProcessError e); intros H; inv H.
Qed.

(** C9: an empty-string workspace override is the same as no override: the
    constructor behaves exactly as it does without one.  The first thing
    it does is to ask the external tool for the current workspace; when it
    returns, the importer's workspace is the name the tool printed
    (translated and stripped), not the empty string, and the resource
    prefix is built from that name; when the query exits with a non-zero
    status the constructor raises [SystemExit(1)] instead of going on with
    the empty string. *)
Theorem init_empty_workspace_override
    (env : Env) (profile : string) (w : World) :
  __init__ env profile (Some EmptyString) w = __init__ env profile None w
  /\ (exists rest,
        calls (snd (__init__ env profile (Some EmptyString) w))
        = calls w ++ CallWorkspaceShow :: rest)
  /\ (forall self w',
        __init__ env profile (Some EmptyString) w = (Ok self, w') ->
        exists out err,
          terraform_workspace_show env (calls w) = ProcExit 0 out err
          /\ workspace self = PyStr.strip (PyStr.universal_newlines out)
          /\ resource_prefix self
             = (project_name self ++ "-state-files-"
                ++ PyStr.strip (PyStr.universal_newlines out))%string)
  /\ (forall code out err,
        terraform_workspace_show env (calls w) = ProcExit code out err ->
        code <> 0%Z ->
        fst (__init__ env profile (Some EmptyString) w)
        = Raise (SystemExit 1)).
Proof.
  split; [reflexivity|]. split; [|split].
  - unfold __init__. simpl PyStr.truthy_opt. cbv iota.
    unfold bind at 1.
    pose proof (get_current_workspace_calls env w) as Hc.
    destruct (_get_current_workspace env w) as [[ws|e] w1]; simpl in Hc.
    2:{ exists []. simpl. exact Hc. }
    unfold bind at 1. unfold boto_call at 1.
    destruct (boto3_Session env (calls w1) profile) as [e|].
    { eexists. simpl. rewrite Hc, <- app_assoc. reflexivity. }
    unfold bind at 1. unfold boto_call at 1. simpl calls.
    destruct (session_client env _ "s3") as [e|].
    { eexists. simpl. rewrite Hc, <- !app_assoc. reflexivity. }
    unfold bind at 1. unfold boto_call at 1. simpl calls.
    destruct (session_client env _ "iam") as [e|].
    { eexists. simpl. rewrite Hc, <- !app_assoc. reflexivity. }
    unfold bind at 1.
    match goal with
    | |- context [_get_project_name env ?w0] =>
        pose proof (get_project_name_calls env w0) as Hp;
        destruct (_get_project_name env w0) as [[pn|e] w2]
    end; simpl in Hp |- *; eexists; rewrite Hp, Hc, <- !app_assoc;
      reflexivity.
  - intros self w' H.
    unfold __init__ in H. simpl PyStr.truthy_opt in H. cbv iota in H.
    unfold bind at 1 in H.
    destruct (_get_current_workspace env w) as [[ws|e] w1] eqn:G;
      [|discriminate].
    destruct (get_current_workspace_ok _ _ _ _ G) as (out & err & Ho & ->).
    exists out, err. split; [exact Ho|].
    revert H. unfold bind, ret.
    repeat match goal with
           | |- context [match ?m ?x with _ => _ end] =>
               destruct (m x) as [[?|?] ?]
           end;
      intros H; inv H; split; reflexivity.
  - intros code out err Ho Hcode.
    unfold __init__, _get_current_workspace. simpl PyStr.truthy_opt.
    cbv iota. unfold_monad. rewrite Ho.
    destruct (code =? 0)%Z eqn:E; [apply Z.eqb_eq in E; contradiction|].
    reflexivity.
Qed.

Lemma init_empty_workspace_override_witness :
  exists self w',
    __init__ Scenario.env1 "mfa" (Some EmptyString) world0 = (Ok self, w')
    /\ workspace self = "prod"%string
    /\ resource_prefix self = "acme-state-files-prod"%string.
Proof.
  destruct (init_empty_workspace_override Scenario.env1 "mfa" world0)
    as (_ & _ & Hws & _).
  eexists; eexists. split; [reflexivity|].
  destruct (Hws _ _ eq_refl) as (out & err & Ho & Hw & Hp).
  injection Ho as <- _. split; [exact Hw | exact Hp].
Defined.

(** C8: when the evaluation of [var.project_name] fails in any way, be it
    a non-zero exit or any exception at all, [_get_project_name] returns
    the default ["terraform-core"] and raises nothing. *)
Theorem get_project_name_default_on_failure (env : Env) (w : World) :
  proc_fails
    (terraform_console env (calls w) ("var.project_name" ++ newline)%string) = true ->
  _get_project_name env w
  = (Ok "terraform-core",
     record_call (CallConsole ("var.project_name" ++ newline)%string) w).
Proof.
  unfold _get_project_name. unfold_monad.
  destruct (terraform_console env (calls w) _) as [code out err|e]; simpl.
  - destruct (code =? 0)%Z; [discriminate | reflexivity].
  - reflexivity.
Qed.

Lemma get_project_name_default_on_failure_witness :
  _get_project_name Scenario.env_no_terraform world0
  = (Ok "terraform-core",
     {| calls := [CallConsole ("var.project_name" ++ newline)%string];
        stdout := [] |}).
Proof.
  apply (get_project_name_default_on_failure Scenario.env_no_terraform world0).
  reflexivity.
Defined.

(** ** Discovery *)

Lemma scan_pages_error prefix e post pre : forall w,
  (forall roles, In roles pre ->
     find (fun n => PyStr.startswith n prefix) roles = None) ->
  scan_pages prefix (map inr pre ++ inl e :: post) w
  = (Raise e,
     {| calls := calls w ++ repeat CallRolesPage (S (length pre));
        stdout := stdout w |}).
Proof.
  induction pre as [|roles pre IH]; intros w Hno; simpl.
  - reflexivity.
  - unfold bind, fetch_page, boto_fetch. rewrite scan_names_find.
    rewrite (Hno roles (or_introl eq_refl)).
    rewrite IH by (intros r Hr; apply Hno; right; exact Hr).
    simpl. rewrite <- app_assoc. reflexivity.
Qed.

(** C7: an error (any exception derived from [Exception]) raised while the
    buckets are listed, or while any page of the role listing is fetched,
    is caught inside the discoverer: the error is printed, the result is
    [None], and nothing is raised to the caller. *)
Theorem discovery_error_is_caught
    (env : Env) (self : TerraformImporter) (w : World) (e : py_exn) :
  is_Exception e = true ->
  (s3_list_buckets env (calls w) = inl e ->
   discover_s3_bucket env self w
   = (Ok None,
      {| calls := calls w ++ [CallListBuckets];
         stdout := stdout w ++ [OutBucketError e] |}))
  /\ (forall pre post,
        iam_list_roles env (calls w) = map inr pre ++ inl e :: post ->
        (forall roles, In roles pre ->
           find (fun n => PyStr.startswith n (resource_prefix self)) roles
           = None) ->
        discover_iam_role env self w
        = (Ok None,
           {| calls := calls w ++
                CallPaginate :: repeat CallRolesPage (S (length pre));
              stdout := stdout w ++ [OutRoleError e] |})).
Proof.
  intros He. split.
  - intros Hl. unfold discover_s3_bucket. unfold_monad.
    rewrite Hl, He. reflexivity.
  - intros pre post Hl Hno. unfold discover_iam_role.
    unfold try_except, bind. rewrite Hl.
    rewrite scan_pages_error by exact Hno.
    rewrite He. unfold print, ret. simpl.
    rewrite <- app_assoc. reflexivity.
Qed.

Lemma discovery_error_is_caught_witness :
  discover_s3_bucket Scenario.env_denied Scenario.self1 world0
  = (Ok None,
     {| calls := [CallListBuckets];
        stdout := [OutBucketError Scenario.access_denied] |})
  /\ discover_iam_role Scenario.env_denied Scenario.self1 world0
     = (Ok None,
        {| calls := [CallPaginate; CallRolesPage; CallRolesPage];
           stdout := [OutRoleError Scenario.access_denied] |}).
Proof.
  destruct (discovery_error_is_caught Scenario.env_denied Scenario.self1
              world0 Scenario.access_denied eq_refl) as [Hbucket Hrole].
  split.
  - apply Hbucket. reflexivity.
  - apply (Hrole [["admin"; "dev"]] [inr [Scenario.role]]).
    + reflexivity.
    + intros roles [<-|[]]. reflexivity.
Defined.

(** ** The import loop *)

Lemma run_import_loop_dry env plan : forall w,
  run_import_loop env true plan w
  = (Ok tt,
     {| calls := calls w;
        stdout := stdout w ++
          map (fun c => OutDryRun
                 (PyStr.join " " ["terraform"; "import"; fst c; snd c]))
              plan |}).
Proof.
  induction plan as [|[a x] plan IH]; intros w; simpl.
  - unfold ret. rewrite app_nil_r. destruct w; reflexivity.
  - unfold bind, print. rewrite IH. simpl.
    rewrite <- app_assoc. reflexivity.
Qed.

(** One iteration in Apply mode: whatever the exit status, the loop goes
    on with the rest of the plan. *)
Lemma run_import_loop_apply_step env a x rest w :
  proc_exits (terraform_import env (calls w) a x) = true ->
  run_import_loop env false ((a, x) :: rest) w
  = run_import_loop env false rest
      {| calls := calls w ++ [CallImport a x];
         stdout := stdout w ++
           [OutRunning (PyStr.join " " ["terraform"; "import"; a; x]);
            import_record a (terraform_import env (calls w) a x);
            OutBlank] |}.
Proof.
  intros Hex. simpl. unfold_monad. unfold record_call. simpl.
  destruct (terraform_import env (calls w) a x) as [code out err|e];
    [|discriminate].
  simpl. destruct (code =? 0)%Z; simpl; rewrite <- !app_assoc; reflexivity.
Qed.

Lemma history_at_0 h plan : history_at h plan 0 = h.
Proof. unfold history_at. simpl. apply app_nil_r. Qed.

Lemma history_at_S h c plan k :
  history_at h (c :: plan) (S k) = history_at (h ++ [import_call c]) plan k.
Proof. unfold history_at. simpl. rewrite <- app_assoc. reflexivity. Qed.

Lemma run_import_loop_apply env plan : forall w,
  (forall j a x, nth_error plan j = Some (a, x) ->
     proc_exits (terraform_import env (history_at (calls w) plan j) a x)
     = true) ->
  run_import_loop env false plan w
  = (Ok tt,
     {| calls := calls w ++ map import_call plan;
        stdout := stdout w ++ import_log env (calls w) plan |}).
Proof.
  induction plan as [|[a x] plan IH]; intros w Hex.
  - simpl. unfold ret. rewrite !app_nil_r. destruct w; reflexivity.
  - pose proof (Hex 0 a x eq_refl) as H0. rewrite history_at_0 in H0.
    rewrite run_import_loop_apply_step by exact H0.
    rewrite IH.
    + simpl. rewrite <- !app_assoc. reflexivity.
    + intros j b y Hj. simpl calls.
      specialize (Hex (S j) b y Hj). rewrite history_at_S in Hex.
      exact Hex.
Qed.

Lemma import_log_nth env plan : forall h k a x,
  nth_error plan k = Some (a, x) ->
  nth_error (import_log env h plan) (3 * k + 1)
  = Some (import_record a (terraform_import env (history_at h plan k) a x)).
Proof.
  induction plan as [|[b y] plan IH]; intros h k a x Hk.
  - destruct k; discriminate.
  - destruct k as [|k].
    + inv Hk. rewrite history_at_0. reflexivity.
    + simpl in Hk. rewrite history_at_S.
      replace (3 * S k + 1) with (S (S (S (3 * k + 1)))) by lia.
      simpl. apply IH, Hk.
Qed.

Lemma nth_error_app_plus {A} (l l' : list A) n :
  nth_error (l ++ l') (length l + n) = nth_error l' n.
Proof.
  rewrite nth_error_app2 by lia. f_equal. lia.
Qed.

(** C3: in Apply mode, when the import at position [k] fails with a
    non-zero exit status, the loop is not halted: it returns normally, the
    imports of all later positions are invoked, each with its own pair,
    and every position has its own record in the output, a success line or
    a failure line carrying the error stream; the record of position [k]
    is the failure line.  Imports are taken to end with an exit status,
    zero or not. *)
Theorem failed_import_does_not_halt
    (env : Env) (plan : list (string * string)) (w : World)
    (k : nat) (address id : string) (code : Z) (out err : string) :
  (forall j a x, nth_error plan j = Some (a, x) ->
     proc_exits (terraform_import env (history_at (calls w) plan j) a x)
     = true) ->
  nth_error plan k = Some (address, id) ->
  terraform_import env (history_at (calls w) plan k) address id
  = ProcExit code out err ->
  code <> 0%Z ->
  exists w',
    run_import_loop env false plan w = (Ok tt, w')
    /\ (forall j a x, k < j -> nth_error plan j = Some (a, x) ->
        nth_error (calls w') (length (calls w) + j) = Some (CallImport a x))
    /\ (forall j a x, nth_error plan j = Some (a, x) ->
        nth_error (stdout w') (length (stdout w) + (3 * j + 1))
        = Some (import_record a
                  (terraform_import env (history_at (calls w) plan j) a x)))
    /\ nth_error (stdout w') (length (stdout w) + (3 * k + 1))
       = Some (OutFailed address (PyStr.universal_newlines err)).
Proof.
  intros Hex Hk Hout Hcode.
  eexists. split; [apply run_import_loop_apply, Hex|]. cbn [calls stdout].
  assert (Hlog : forall j a x, nth_error plan j = Some (a, x) ->
            nth_error (stdout w ++ import_log env (calls w) plan)
              (length (stdout w) + (3 * j + 1))
            = Some (import_record a
                 (terraform_import env (history_at (calls w) plan j) a x))).
  { intros j a x Hj. rewrite nth_error_app_plus.
    apply import_log_nth, Hj. }
  split; [|split].
  - intros j a x _ Hj. rewrite nth_error_app_plus.
    rewrite nth_error_map, Hj. reflexivity.
  - exact Hlog.
  - rewrite (Hlog k address id Hk), Hout. simpl.
    destruct (code =? 0)%Z eqn:E; [|reflexivity].
    apply Z.eqb_eq in E. contradiction.
Qed.

Lemma failed_import_does_not_halt_witness :
  exists w',
    run_import_loop Scenario.env1 false Scenario.plan3 world0 = (Ok tt, w')
    /\ nth_error (calls w') 2
       = Some (CallImport "aws_iam_role.terraform_state_role" Scenario.role)
    /\ nth_error (stdout w') 4
       = Some (OutFailed "aws_s3_bucket_versioning.terraform_state_versioning"
                 "Error: Cannot import non-existent remote object").
Proof.
  destruct (failed_import_does_not_halt Scenario.env1 Scenario.plan3 world0 1
              "aws_s3_bucket_versioning.terraform_state_versioning"
              Scenario.bucket 1 EmptyString
              "Error: Cannot import non-existent remote object")
    as (w' & Hrun & Hlater & _ & Hfail).
  - intros j a x _. simpl.
    destruct (String.eqb a _); reflexivity.
  - reflexivity.
  - reflexivity.
  - discriminate.
  - exists w'. split; [exact Hrun|]. split; [|exact Hfail].
    apply (Hlater 2 "aws_iam_role.terraform_state_role" Scenario.role);
      [lia | reflexivity].
Defined.

(** C4: in DryRun mode the loop invokes no import at all; in Apply mode it
    invokes the import exactly once for every plan entry, in plan order
    and with the entry's address and id, whether the single imports exit
    with status zero or not. *)
Theorem import_invocations_per_mode
    (env : Env) (plan : list (string * string)) (w : World) :
  (fst (run_import_loop env true plan w) = Ok tt
   /\ calls (snd (run_import_loop env true plan w)) = calls w)
  /\ ((forall j a x, nth_error plan j = Some (a, x) ->
         proc_exits (terraform_import env (history_at (calls w) plan j) a x)
         = true) ->
      fst (run_import_loop env false plan w) = Ok tt
      /\ calls (snd (run_import_loop env false plan w))
         = calls w ++ map (fun c => CallImport (fst c) (snd c)) plan).
Proof.
  rewrite run_import_loop_dry. split; [split; reflexivity|].
  intros Hex. rewrite run_import_loop_apply by exact Hex.
  split; reflexivity.
Qed.

Lemma import_invocations_per_mode_witness :
  calls (snd (run_import_loop Scenario.env1 true Scenario.plan3 world0)) = []
  /\ calls (snd (run_import_loop Scenario.env1 false Scenario.plan3 world0))
     = [ CallImport "aws_s3_bucket.terraform_state" Scenario.bucket;
         CallImport "aws_s3_bucket_versioning.terraform_state_versioning"
           Scenario.bucket;
         CallImport "aws_iam_role.terraform_state_role" Scenario.role ].
Proof.
  destruct (import_invocations_per_mode Scenario.env1 Scenario.plan3 world0)
    as [[_ Hdry] Happly].
  split; [exact Hdry|].
  apply Happly. intros j a x _. simpl.
  destruct (String.eqb a _); reflexivity.
Defined.

(** ** The executor *)

(** The gate never raises and makes exactly one call. *)
Lemma check_import_needed_run env w :
  exists b,
    check_import_needed env w = (Ok b, record_call (CallConsole flag_input) w).
Proof.
  unfold check_import_needed. unfold_monad. fold flag_input.
  destruct (terraform_console env (calls w) flag_input) as [code out err|e].
  - destruct (code =? 0)%Z; eexists; reflexivity.
  - eexists; reflexivity.
Qed.

(** C5: when the evaluation of [var.import_existing_resources] fails
    (non-zero exit or any exception), or succeeds with anything but
    [true], [run_import] returns at once in both modes: the flag query is
    the only external call of the run, so there is no bucket listing, no
    role listing and no import. *)
Theorem run_import_gate_closed
    (env : Env) (self : TerraformImporter) (dry_run : bool) (w : World) :
  proc_fails (terraform_console env (calls w) flag_input) = true
  \/ (exists out err,
        terraform_console env (calls w) flag_input = ProcExit 0 out err
        /\ String.eqb (PyStr.lower (PyStr.strip out)) "true" = false) ->
  run_import env self dry_run w
  = (Ok tt,
     {| calls := calls w ++ [CallConsole flag_input];
        stdout := stdout w ++ [OutNotNeeded] |}).
Proof.
  intros H. unfold run_import, check_import_needed. unfold_monad.
  fold flag_input.
  destruct H as [H | (out & err & H & Hne)].
  - destruct (terraform_console env (calls w) flag_input)
      as [code o e'|e]; simpl in H.
    + destruct (code =? 0)%Z; [discriminate | reflexivity].
    + reflexivity.
  - rewrite H. simpl "=?"%Z. cbv iota.
    rewrite flag_test_universal_newlines, Hne. reflexivity.
Qed.

Lemma run_import_gate_closed_witness :
  run_import Scenario.env_flag_false Scenario.self1 false world0
  = (Ok tt, {| calls := [CallConsole flag_input]; stdout := [OutNotNeeded] |})
  /\ run_import Scenario.env_no_terraform Scenario.self1 true world0
     = (Ok tt,
        {| calls := [CallConsole flag_input]; stdout := [OutNotNeeded] |}).
Proof.
  split.
  - apply (run_import_gate_closed Scenario.env_flag_false Scenario.self1
             false world0).
    right. exists ("false" ++ newline)%string, EmptyString.
    split; reflexivity.
  - apply (run_import_gate_closed Scenario.env_no_terraform Scenario.self1
             true world0).
    left. reflexivity.
Defined.

Lemma discover_s3_bucket_calls env self w :
  calls (snd (discover_s3_bucket env self w)) = calls w ++ [CallListBuckets].
Proof.
  unfold discover_s3_bucket. unfold_monad.
  destruct (s3_list_buckets env (calls w)) as [e|buckets].
  - destruct (is_Exception e); reflexivity.
  - rewrite scan_names_find. destruct (find _ buckets); reflexivity.
Qed.

Lemma scan_pages_calls prefix pages : forall w,
  exists m,
    calls (snd (scan_pages prefix pages w))
    = calls w ++ repeat CallRolesPage m.
Proof.
  induction pages as [|page pages IH]; intros w; simpl.
  - exists 0. simpl. rewrite app_nil_r. reflexivity.
  - unfold_monad. destruct page as [e|roles]; simpl.
    + exists 1. reflexivity.
    + rewrite scan_names_find. destruct (find _ roles).
      * exists 1. reflexivity.
      * destruct (IH (record_call CallRolesPage w)) as [m Hm].
        exists (S m). rewrite Hm. simpl. rewrite <- app_assoc. reflexivity.
Qed.

Lemma discover_iam_role_calls env self w :
  exists m,
    calls (snd (discover_iam_role env self w))
    = calls w ++ CallPaginate :: repeat CallRolesPage m.
Proof.
  unfold discover_iam_role. unfold try_except, bind.
  destruct (scan_pages_calls (resource_prefix self)
              (iam_list_roles env (calls w)) (record_call CallPaginate w))
    as [m Hm].
  exists m. simpl in Hm. rewrite <- app_assoc in Hm.
  destruct (scan_pages _ _ _) as [[o|e] w1]; simpl in Hm |- *.
  - exact Hm.
  - destruct (is_Exception e); simpl; exact Hm.
Qed.

Lemma discover_s3_bucket_returns env self w :
  (forall e, s3_list_buckets env (calls w) = inl e -> is_Exception e = true) ->
  exists o, fst (discover_s3_bucket env self w) = Ok o.
Proof.
  intros H. unfold discover_s3_bucket. unfold_monad.
  destruct (s3_list_buckets env (calls w)) as [e|buckets].
  - rewrite (H e eq_refl). eexists; reflexivity.
  - rewrite scan_names_find. destruct (find _ buckets); eexists; reflexivity.
Qed.

Lemma repeat_not_import m :
  Forall (fun c => is_import c = false) (repeat CallRolesPage m).
Proof. induction m; simpl; constructor; auto. Qed.

(** The calls of plan building: the bucket listing, then, unless the
    bucket listing was interrupted, the role listing. *)
Lemma get_import_commands_calls env self w :
  exists l,
    calls (snd (get_import_commands env self w))
    = calls w ++ CallListBuckets :: l
    /\ Forall (fun c => is_import c = false) l
    /\ ((forall e, s3_list_buckets env (calls w) = inl e ->
           is_Exception e = true) ->
        exists m, l = CallPaginate :: repeat CallRolesPage m).
Proof.
  unfold get_import_commands, bind.
  pose proof (discover_s3_bucket_calls env self w) as Hb.
  pose proof (discover_s3_bucket_returns env self w) as Rb.
  destruct (discover_s3_bucket env self w) as [[ob|e] w1]; simpl in Hb, Rb.
  - destruct (discover_iam_role_calls env self w1) as [m Hr].
    exists (CallPaginate :: repeat CallRolesPage m).
    assert (Hc : forall w2, calls w2
                   = calls w1 ++ CallPaginate :: repeat CallRolesPage m ->
                 calls w2 = calls w ++
                   CallListBuckets :: CallPaginate :: repeat CallRolesPage m).
    { intros w2 ->. rewrite Hb, <- app_assoc. reflexivity. }
    split; [|split].
    + destruct (discover_iam_role env self w1) as [[orl|e] w2]; simpl in Hr.
      * destruct (negb (PyStr.truthy_opt ob)); [apply Hc, Hr|].
        destruct (negb (PyStr.truthy_opt orl)); apply Hc, Hr.
      * apply Hc, Hr.
    + constructor; [reflexivity | apply repeat_not_import].
    + intros _. exists m. reflexivity.
  - exists []. split; [exact Hb|]. split; [constructor|].
    intros H. destruct (Rb H) as [o Ho]. discriminate.
Qed.

Lemma run_import_loop_apply_calls env plan : forall w,
  exists l,
    calls (snd (run_import_loop env false plan w)) = calls w ++ l
    /\ Forall (fun c => is_import c = true) l.
Proof.
  induction plan as [|[a x] plan IH]; intros w; simpl.
  - exists []. rewrite app_nil_r. split; [reflexivity | constructor].
  - unfold_monad. unfold record_call. simpl.
    destruct (terraform_import env (calls w) a x) as [code out err|e].
    + destruct (code =? 0)%Z; simpl;
        match goal with
        | |- context [run_import_loop env false plan ?w0] =>
            destruct (IH w0) as [l [Hl Fl]]
        end;
        (exists (CallImport a x :: l); split;
         [rewrite Hl; simpl; rewrite <- app_assoc; reflexivity
         | constructor; [reflexivity | exact Fl]]).
    + destruct (is_CalledProcessError e); simpl.
      * match goal with
        | |- context [run_import_loop env false plan ?w0] =>
            destruct (IH w0) as [l [Hl Fl]]
        end.
        exists (CallImport a x :: l); split;
          [rewrite Hl; simpl; rewrite <- app_assoc; reflexivity
          | constructor; [reflexivity | exact Fl]].
      * exists [CallImport a x]. split; [reflexivity|].
        constructor; [reflexivity | constructor].
Qed.

(** [run_import] once the gate is open. *)
Lemma run_import_open env self dry_run w w1 :
  check_import_needed env w = (Ok true, w1) ->
  run_import env self dry_run w
  = match get_import_commands env self
            {| calls := calls w1;
               stdout := (((stdout w1 ++ [OutStarting (workspace self)])
                           ++ [OutProfile (profile self)])
                          ++ [OutPrefix (resource_prefix self)])
                         ++ [OutBlank] |} with
    | (Ok [], w2) =>
        (Ok tt, {| calls := calls w2; stdout := stdout w2 ++ [OutNoResources] |})
    | (Ok (c :: commands), w2) =>
        run_import_loop env dry_run (c :: commands)
          {| calls := calls w2;
             stdout := (stdout w2 ++ [OutFoundCount (S (length commands))])
                       ++ [OutBlank] |}
    | (Raise e, w2) => (Raise e, w2)
    end.
Proof.
  intros H. unfold run_import, bind. rewrite H.
  unfold print. cbv beta iota delta [negb]. cbn [calls stdout].
  destruct (get_import_commands env self _) as [[[|c cs]|e] w2]; reflexivity.
Qed.

(** C10: a dry run is not free of external calls.  Up to the import loop
    it makes the very calls the Apply run makes, none of them an import:
    the Apply run's calls are the dry run's calls followed by imports
    only.  The first call is the flag query; when the flag is true the
    bucket listing follows, and then, unless the bucket listing was
    interrupted, the role listing with its pages. *)
Theorem dry_run_still_queries
    (env : Env) (self : TerraformImporter) (w : World) :
  exists pre imports,
    calls (snd (run_import env self true w)) = calls w ++ pre
    /\ calls (snd (run_import env self false w)) = calls w ++ pre ++ imports
    /\ Forall (fun c => is_import c = false) pre
    /\ Forall (fun c => is_import c = true) imports
    /\ exists rest,
         pre = CallConsole flag_input :: rest
         /\ (fst (check_import_needed env w) = Ok true ->
             exists rest',
               rest = CallListBuckets :: rest'
               /\ ((forall e,
                      s3_list_buckets env (calls w ++ [CallConsole flag_input])
                      = inl e -> is_Exception e = true) ->
                   exists m, rest' = CallPaginate :: repeat CallRolesPage m)).
Proof.
  destruct (check_import_needed_run env w) as [needed Hn].
  destruct needed.
  2:{ exists [CallConsole flag_input], [].
      unfold run_import, bind. rewrite Hn. simpl.
      repeat split; try (constructor; [reflexivity | constructor]).
      - constructor.
      - exists []. split; [reflexivity | intros H; discriminate]. }
  rewrite !(run_import_open _ _ _ _ _ Hn). rewrite Hn.
  cbn [calls stdout record_call fst].
  match goal with
  | |- context [get_import_commands env self ?w0] =>
      destruct (get_import_commands_calls env self w0) as (l & Hl & Fl & Ml);
      destruct (get_import_commands env self w0) as [[commands|e] w2]
  end; cbn [calls snd] in Hl, Ml.
  2:{ exists (CallConsole flag_input :: CallListBuckets :: l), [].
      cbn [snd]. rewrite app_nil_r, Hl, <- app_assoc.
      repeat split; try (constructor; [reflexivity|]);
        try (constructor; [reflexivity | exact Fl]); try constructor.
      exists (CallListBuckets :: l). split; [reflexivity|].
      intros _. exists l. split; [reflexivity | exact Ml]. }
  assert (Hpre : calls w2
                 = calls w ++ CallConsole flag_input :: CallListBuckets :: l).
  { rewrite Hl, <- app_assoc. reflexivity. }
  assert (Fpre : Forall (fun c => is_import c = false)
                   (CallConsole flag_input :: CallListBuckets :: l)).
  { constructor; [reflexivity|]. constructor; [reflexivity | exact Fl]. }
  assert (Tail : exists rest,
            CallConsole flag_input :: CallListBuckets :: l
            = CallConsole flag_input :: rest
            /\ (@Ok bool true = Ok true ->
                exists rest',
                  rest = CallListBuckets :: rest'
                  /\ ((forall e,
                         s3_list_buckets env
                           (calls w ++ [CallConsole flag_input]) = inl e ->
                         is_Exception e = true) ->
                      exists m,
                        rest' = CallPaginate :: repeat CallRolesPage m))).
  { exists (CallListBuckets :: l). split; [reflexivity|].
    intros _. exists l. split; [reflexivity | exact Ml]. }
  destruct commands as [|c commands].
  - exists (CallConsole flag_input :: CallListBuckets :: l), [].
    cbn [snd calls]. rewrite app_nil_r.
    repeat split; try exact Hpre; try exact Fpre; try constructor.
    exact Tail.
  - rewrite run_import_loop_dry.
    match goal with
    | |- context [run_import_loop env false (c :: commands) ?w0] =>
        destruct (run_import_loop_apply_calls env (c :: commands) w0)
          as (imports & Hi & Fi)
    end.
    exists (CallConsole flag_input :: CallListBuckets :: l), imports.
    cbn [snd calls] in Hi |- *. rewrite Hi, Hpre, <- app_assoc.
    repeat split; try exact Fpre; try exact Fi.
    exact Tail.
Qed.

(** * Further properties of the script *)

(** ** Naming *)

(** X1: [_get_current_workspace] returns the name the tool prints, with
    the whitespace around it (the final line end in particular) removed;
    the name itself is as text mode delivers it, a CR LF or CR inside it
    read as LF and nothing else touched. *)
Theorem get_current_workspace_strips
    (env : Env) (w : World) (pre name post err : string)
    (c d : ascii) (n m : string) :
  terraform_workspace_show env (calls w)
  = ProcExit 0 (pre ++ name ++ post) err ->
  string_forall PyStr.isspace pre = true ->
  string_forall PyStr.isspace post = true ->
  name = String c n -> name = (m ++ String d EmptyString)%string ->
  PyStr.isspace c = false -> PyStr.isspace d = false ->
  _get_current_workspace env w
  = (Ok (PyStr.universal_newlines name), record_call CallWorkspaceShow w).
Proof.
  intros Hout Hpre Hpost Hc Hd Pc Pd.
  unfold _get_current_workspace. unfold_monad. rewrite Hout.
  simpl "=?"%Z. cbv iota.
  rewrite strip_universal_newlines. unfold PyStr.strip.
  rewrite (strip_with_padding _ pre name post c d n m) by assumption.
  reflexivity.
Qed.

Lemma get_current_workspace_strips_witness :
  _get_current_workspace Scenario.env_crlf world0
  = (Ok "prod", record_call CallWorkspaceShow world0).
Proof.
  apply (get_current_workspace_strips Scenario.env_crlf world0
           EmptyString "prod" (String PyStr.CR newline) EmptyString
           "p"%char "d"%char "rod" "pro");
    reflexivity.
Defined.

(** X2: [_get_project_name] never raises and never returns the empty
    string, whatever the tool does. *)
Theorem get_project_name_nonempty (env : Env) (w : World) :
  exists name,
    _get_project_name env w
    = (Ok name,
       record_call (CallConsole ("var.project_name" ++ newline)%string) w)
    /\ PyStr.truthy name = true.
Proof.
  unfold _get_project_name. unfold_monad.
  destruct (terraform_console env (calls w) _) as [code out err|e].
  - destruct (code =? 0)%Z.
    + destruct (PyStr.truthy (PyStr.strip_chars _ _)) eqn:T;
        eexists; split; try reflexivity; exact T.
    + eexists; split; reflexivity.
  - eexists; split; reflexivity.
Qed.

(** X3: when the tool prints the project name as a quoted string, with
    whitespace around it, [_get_project_name] returns the name between the
    quotes, provided the name neither begins nor ends with a quote; the
    name is as text mode delivers it, a CR LF or CR inside it read as LF
    and nothing else touched. *)
Theorem get_project_name_unquotes
    (env : Env) (w : World) (pre name post err : string)
    (c d : ascii) (n m : string) :
  terraform_console env (calls w) ("var.project_name" ++ newline)%string
  = ProcExit 0
      (pre ++ String double_quote (name ++ String double_quote post)) err ->
  string_forall PyStr.isspace pre = true ->
  string_forall PyStr.isspace post = true ->
  name = String c n -> name = (m ++ String d EmptyString)%string ->
  c <> double_quote -> d <> double_quote ->
  _get_project_name env w
  = (Ok (PyStr.universal_newlines name),
     record_call (CallConsole ("var.project_name" ++ newline)%string) w).
Proof.
  intros Hout Hpre Hpost Hc Hd Qc Qd.
  assert (Pc : is_quote c = false).
  { unfold is_quote. simpl. rewrite orb_false_r. apply Ascii.eqb_neq, Qc. }
  assert (Pd : is_quote d = false).
  { unfold is_quote. simpl. rewrite orb_false_r. apply Ascii.eqb_neq, Qd. }
  unfold _get_project_name. unfold_monad. rewrite Hout.
  simpl "=?"%Z. cbv iota.
  set (quoted := String double_quote (name ++ String double_quote EmptyString)).
  assert (S1 : PyStr.strip
                 (pre ++ String double_quote (name ++ String double_quote post))
               = quoted).
  { unfold PyStr.strip.
    replace (String double_quote (name ++ String double_quote post))
      with (quoted ++ post)%string
      by (unfold quoted; simpl; rewrite string_app_assoc; reflexivity).
    apply (strip_with_padding _ pre quoted post double_quote double_quote
             (name ++ String double_quote EmptyString)
             (String double_quote name));
      try assumption; reflexivity. }
  rewrite strip_universal_newlines, S1.
  assert (S2 : PyStr.universal_newlines quoted
               = String double_quote
                   (PyStr.universal_newlines name
                    ++ String double_quote EmptyString)).
  { unfold quoted, PyStr.universal_newlines.
    rewrite translate_newlines_cons by reflexivity.
    rewrite translate_newlines_app.
    rewrite (translate_newlines_cons double_quote) by reflexivity.
    reflexivity. }
  rewrite S2. unfold PyStr.strip_chars. fold is_quote.
  destruct (universal_newlines_first is_quote c n eq_refl Pc)
    as (c' & n' & Ec' & Pc').
  destruct (translate_newlines_last is_quote d m eq_refl Pd false)
    as [[_ F] | (m' & d' & Ed' & Pd')]; [discriminate|].
  rewrite <- Hc in Ec'. rewrite <- Hd in Ed'.
  fold (PyStr.universal_newlines name) in Ed'.
  assert (S3 : PyStr.strip_with is_quote
                 (String double_quote
                    (PyStr.universal_newlines name
                     ++ String double_quote EmptyString))
               = PyStr.universal_newlines name).
  { apply (strip_with_padding is_quote (String double_quote EmptyString)
             (PyStr.universal_newlines name)
             (String double_quote EmptyString) c' d' n' m');
      try assumption; reflexivity. }
  rewrite S3. rewrite Ec' at 1. reflexivity.
Qed.

Lemma get_project_name_unquotes_witness :
  _get_project_name Scenario.env_crlf world0
  = (Ok "acme",
     record_call (CallConsole ("var.project_name" ++ newline)%string) world0).
Proof.
  apply (get_project_name_unquotes Scenario.env_crlf world0
           EmptyString "acme" (String PyStr.CR newline) EmptyString
           "a"%char "e"%char "cme" "acm");
    try reflexivity; discriminate.
Defined.

(** ** The constructor and the entry point *)

Lemma get_project_name_run env w :
  exists name,
    _get_project_name env w
    = (Ok name,
       record_call (CallConsole ("var.project_name" ++ newline)%string) w).
Proof.
  unfold _get_project_name. unfold_monad.
  destruct (terraform_console env (calls w) _) as [code out err|e].
  - destruct (code =? 0)%Z; eexists; reflexivity.
  - eexists; reflexivity.
Qed.

(** What [__init__] does once the workspace is known. *)
Lemma init_after_workspace env prof ws w :
  let init_rest :=
    (boto_call (CallSession prof) (fun h => boto3_Session env h prof) ;;
     boto_call (CallClient "s3") (fun h => session_client env h "s3") ;;
     boto_call (CallClient "iam") (fun h => session_client env h "iam") ;;
     project_name <- _get_project_name env ;;
     ret {| profile := prof;
            workspace := ws;
            project_name := project_name;
            resource_prefix :=
              (project_name ++ "-state-files-" ++ ws)%string |})%py in
  exists l,
    calls (snd (init_rest w)) = calls w ++ l
    /\ ~ In CallWorkspaceShow l
    /\ Forall (fun c => is_import c = false) l
    /\ stdout (snd (init_rest w)) = stdout w
    /\ (forall self w', init_rest w = (Ok self, w') ->
        workspace self = ws /\ profile self = prof
        /\ l = [ CallSession prof; CallClient "s3"; CallClient "iam";
                 CallConsole ("var.project_name" ++ newline)%string ]).
Proof.
  intros init_rest. subst init_rest.
  unfold bind, boto_call, ret. cbn [calls record_call].
  destruct (boto3_Session env (calls w) prof) as [e|].
  { exists [CallSession prof]. unfold record_call; cbn [snd calls stdout].
    split; [reflexivity|]. split; [intros [H|[]]; discriminate|].
    split; [repeat constructor|]. split; [reflexivity|].
    intros self w' H; discriminate. }
  destruct (session_client env _ "s3") as [e|].
  { exists [CallSession prof; CallClient "s3"]. unfold record_call; cbn [snd calls stdout].
    rewrite <- app_assoc.
    split; [reflexivity|]. split; [intros [H|[H|[]]]; discriminate|].
    split; [repeat constructor|]. split; [reflexivity|].
    intros self w' H; discriminate. }
  destruct (session_client env _ "iam") as [e|].
  { exists [CallSession prof; CallClient "s3"; CallClient "iam"].
    unfold record_call; cbn [snd calls stdout]. rewrite <- !app_assoc.
    split; [reflexivity|]. split; [intros [H|[H|[H|[]]]]; discriminate|].
    split; [repeat constructor|]. split; [reflexivity|].
    intros self w' H; discriminate. }
  match goal with
  | |- context [_get_project_name env ?w0] =>
      destruct (get_project_name_run env w0) as [name Hn]
  end.
  rewrite Hn. unfold record_call; cbn [snd calls stdout].
  exists [ CallSession prof; CallClient "s3"; CallClient "iam";
           CallConsole ("var.project_name" ++ newline)%string ].
  rewrite <- !app_assoc.
  split; [reflexivity|]. split; [intros [H|[H|[H|[H|[]]]]]; discriminate|].
  split; [repeat constructor|]. split; [reflexivity|].
  intros self w' H. inv H. repeat split.
Qed.

(** X4: with a non-empty workspace override the constructor never asks
    the tool for the current workspace; when it returns, the importer's
    workspace is the override as given (it is not stripped), and the calls
    made are the session, the two clients and the project-name query. *)
Theorem init_explicit_workspace
    (env : Env) (prof ws : string) (w : World) :
  PyStr.truthy ws = true ->
  exists l,
    calls (snd (__init__ env prof (Some ws) w)) = calls w ++ l
    /\ ~ In CallWorkspaceShow l
    /\ (forall self w',
          __init__ env prof (Some ws) w = (Ok self, w') ->
          workspace self = ws /\ profile self = prof
          /\ l = [ CallSession prof; CallClient "s3"; CallClient "iam";
                   CallConsole ("var.project_name" ++ newline)%string ]).
Proof.
  intros T.
  destruct (init_after_workspace env prof ws w) as (l & Hc & Hn & _ & _ & Hok).
  unfold __init__. cbn [PyStr.truthy_opt PyStr.value]. rewrite T.
  exists l. split; [exact Hc|]. split; [exact Hn | exact Hok].
Qed.

Lemma init_explicit_workspace_witness :
  exists self w',
    __init__ Scenario.env1 "mfa" (Some " prod ") world0 = (Ok self, w')
    /\ workspace self = " prod "
    /\ calls w'
       = [ CallSession "mfa"; CallClient "s3"; CallClient "iam";
           CallConsole ("var.project_name" ++ newline)%string ].
Proof.
  destruct (init_explicit_workspace Scenario.env1 "mfa" " prod " world0
              eq_refl) as (l & Hc & _ & Hok).
  eexists; eexists. split; [reflexivity|].
  destruct (Hok _ _ eq_refl) as (Hw & _ & Hl).
  split; [exact Hw | reflexivity].
Defined.

(** X5: without a usable override, a non-zero exit of the workspace query
    is fatal: [main] prints the error line and raises [SystemExit(1)]
    having made no other call; the exit passes both [except] clauses of
    [main], so no further line is printed. *)
Theorem main_workspace_unavailable
    (env : Env) (args : Args) (w : World) (code : Z) (out err : string) :
  PyStr.truthy_opt (arg_workspace args) = false ->
  terraform_workspace_show env (calls w) = ProcExit code out err ->
  code <> 0%Z ->
  main env args w
  = (Raise (SystemExit 1),
     {| calls := calls w ++ [CallWorkspaceShow];
        stdout := stdout w ++ [OutWorkspaceError] |}).
Proof.
  intros T Hout Hcode.
  unfold main, __init__, _get_current_workspace. rewrite T.
  unfold_monad. rewrite Hout.
  destruct (code =? 0)%Z eqn:E; [apply Z.eqb_eq in E; contradiction|].
  reflexivity.
Qed.

Lemma main_workspace_unavailable_witness :
  main Scenario.env_no_workspace Scenario.args_apply world0
  = (Raise (SystemExit 1),
     {| calls := [CallWorkspaceShow]; stdout := [OutWorkspaceError] |}).
Proof.
  apply (main_workspace_unavailable Scenario.env_no_workspace
           Scenario.args_apply world0 1 EmptyString
           "Error: No configuration files");
    [reflexivity | reflexivity | discriminate].
Defined.

(** X6: a failure to open the [boto3] session is fatal, with or without
    a workspace override: once the workspace is resolved (it is given, or
    the query has exited with status zero), an exception derived from
    [Exception] raised by [boto3.Session] makes [main] print the error and
    raise [SystemExit(1)]; no client is created, the project name is not
    queried and [run_import] is not started. *)
Theorem main_session_failure
    (env : Env) (args : Args) (w : World) (e : py_exn) :
  is_Exception e = true ->
  (PyStr.truthy_opt (arg_workspace args) = false ->
   exists out err,
     terraform_workspace_show env (calls w) = ProcExit 0 out err) ->
  boto3_Session env
    (calls w ++ (if PyStr.truthy_opt (arg_workspace args)
                 then [] else [CallWorkspaceShow]))
    (arg_profile args) = Some e ->
  main env args w
  = (Raise (SystemExit 1),
     {| calls := calls w ++
          (if PyStr.truthy_opt (arg_workspace args)
           then [] else [CallWorkspaceShow])
          ++ [CallSession (arg_profile args)];
        stdout := stdout w ++ [OutError e] |}).
Proof.
  intros He Hq Hs.
  destruct (PyStr.truthy_opt (arg_workspace args)) eqn:T.
  - rewrite app_nil_r in Hs.
    unfold main, __init__. rewrite T.
    unfold_monad. rewrite Hs. unfold record_call.
    destruct e; try discriminate; reflexivity.
  - destruct (Hq eq_refl) as (out & err & Ho).
    unfold main, __init__, _get_current_workspace. rewrite T.
    unfold_monad. rewrite Ho. simpl "=?"%Z. cbv iota.
    unfold record_call. cbn [calls stdout]. rewrite Hs.
    rewrite <- app_assoc.
    destruct e; try discriminate; reflexivity.
Qed.

Lemma main_session_failure_witness :
  main Scenario.env_no_profile Scenario.args_apply world0
  = (Raise (SystemExit 1),
     {| calls := [CallWorkspaceShow; CallSession "mfa"];
        stdout := [OutError Scenario.profile_not_found] |})
  /\ main Scenario.env_no_profile Scenario.args_dry world0
     = (Raise (SystemExit 1),
        {| calls := [CallSession "mfa"];
           stdout := [OutError Scenario.profile_not_found] |}).
Proof.
  split.
  - apply (main_session_failure Scenario.env_no_profile Scenario.args_apply
             world0 Scenario.profile_not_found).
    + reflexivity.
    + intros _. eexists; eexists; reflexivity.
    + reflexivity.
  - apply (main_session_failure Scenario.env_no_profile Scenario.args_dry
             world0 Scenario.profile_not_found).
    + reflexivity.
    + intros H. discriminate.
    + reflexivity.
Defined.

(** X7: nothing but a [SystemExit] ever escapes [main]: every exception
    derived from [Exception] and every [KeyboardInterrupt] is turned into
    an exit. *)
Theorem main_only_exits (env : Env) (args : Args) (w : World) :
  fst (main env args w) = Ok tt
  \/ exists code, fst (main env args w) = Raise (SystemExit code).
Proof.
  unfold main, try_except.
  destruct (bind _ _ w) as [[[]|e] w1]; [left; reflexivity|].
  right. destruct e; simpl; unfold_monad; eexists; reflexivity.
Qed.

(** ** Discovery in listing order *)

Lemma find_none_of {A} (f : A -> bool) (l : list A) :
  (forall x, In x l -> f x = false) -> find f l = None.
Proof.
  induction l as [|x l IH]; intros H; simpl; [reflexivity|].
  rewrite (H x (or_introl eq_refl)). apply IH.
  intros y Hy. apply H. right. exact Hy.
Qed.

Lemma find_first {A} (f : A -> bool) (before after : list A) (x : A) :
  (forall y, In y before -> f y = false) -> f x = true ->
  find f (before ++ x :: after) = Some x.
Proof.
  induction before as [|y before IH]; intros H Hx; simpl.
  - rewrite Hx. reflexivity.
  - rewrite (H y (or_introl eq_refl)). apply IH; [|exact Hx].
    intros z Hz. apply H. right. exact Hz.
Qed.

(** X8: of several buckets carrying the prefix, [discover_s3_bucket]
    returns the one the listing puts first, whatever follows it, and
    reports it. *)
Theorem discover_s3_bucket_first_match
    (env : Env) (self : TerraformImporter) (w : World)
    (before after : list string) (bucket : string) :
  s3_list_buckets env (calls w) = inr (before ++ bucket :: after) ->
  (forall n, In n before ->
     PyStr.startswith n (resource_prefix self) = false) ->
  PyStr.startswith bucket (resource_prefix self) = true ->
  discover_s3_bucket env self w
  = (Ok (Some bucket),
     {| calls := calls w ++ [CallListBuckets];
        stdout := stdout w ++ [OutFoundBucket bucket] |}).
Proof.
  intros Hl Hbefore Hb. unfold discover_s3_bucket. unfold_monad.
  rewrite Hl, scan_names_find.
  rewrite (find_first _ before after bucket Hbefore Hb). reflexivity.
Qed.

Lemma discover_s3_bucket_first_match_witness :
  discover_s3_bucket Scenario.env1 Scenario.self1 world0
  = (Ok (Some Scenario.bucket),
     {| calls := [CallListBuckets];
        stdout := [OutFoundBucket Scenario.bucket] |}).
Proof.
  apply (discover_s3_bucket_first_match Scenario.env1 Scenario.self1 world0
           ["logs"] ["acme-state-files-prod-zz"] Scenario.bucket).
  - reflexivity.
  - intros n [<-|[]]. reflexivity.
  - reflexivity.
Defined.

(** X9: when no listed bucket carries the prefix (the listing may be
    empty), [discover_s3_bucket] returns [None] and prints nothing. *)
Theorem discover_s3_bucket_no_match
    (env : Env) (self : TerraformImporter) (w : World)
    (buckets : list string) :
  s3_list_buckets env (calls w) = inr buckets ->
  (forall n, In n buckets ->
     PyStr.startswith n (resource_prefix self) = false) ->
  discover_s3_bucket env self w
  = (Ok None,
     {| calls := calls w ++ [CallListBuckets]; stdout := stdout w |}).
Proof.
  intros Hl Hno. unfold discover_s3_bucket. unfold_monad.
  rewrite Hl, scan_names_find, (find_none_of _ buckets Hno). reflexivity.
Qed.

Lemma discover_s3_bucket_no_match_witness :
  discover_s3_bucket Scenario.env_nothing Scenario.self1 world0
  = (Ok None, {| calls := [CallListBuckets]; stdout := [] |}).
Proof.
  apply (discover_s3_bucket_no_match Scenario.env_nothing Scenario.self1
           world0 ["logs"]).
  - reflexivity.
  - intros n [<-|[]]. reflexivity.
Defined.

Lemma scan_pages_found prefix page post r pre : forall w,
  (forall roles, In roles pre ->
     find (fun n => PyStr.startswith n prefix) roles = None) ->
  find (fun n => PyStr.startswith n prefix) page = Some r ->
  scan_pages prefix (map inr pre ++ inr page :: post) w
  = (Ok (Some r),
     {| calls := calls w ++ repeat CallRolesPage (S (length pre));
        stdout := stdout w ++ [OutFoundRole r] |}).
Proof.
  induction pre as [|roles pre IH]; intros w Hno Hr; simpl.
  - unfold bind, fetch_page, boto_fetch. rewrite scan_names_find, Hr.
    reflexivity.
  - unfold bind, fetch_page, boto_fetch. rewrite scan_names_find.
    rewrite (Hno roles (or_introl eq_refl)).
    rewrite IH by (try exact Hr; intros x Hx; apply Hno; right; exact Hx).
    simpl. rewrite <- app_assoc. reflexivity.
Qed.

(** X10: [discover_iam_role] fetches pages only up to the first one that
    holds a matching role and returns the first match of that page; the
    pages after it are never fetched, so an error they would raise has no
    effect. *)
Theorem discover_iam_role_stops_at_first_match
    (env : Env) (self : TerraformImporter) (w : World)
    (pre : list (list string)) (before after : list string) (role : string)
    (post : list (py_exn + list string)) :
  iam_list_roles env (calls w)
  = map inr pre ++ inr (before ++ role :: after) :: post ->
  (forall roles n, In roles pre -> In n roles ->
     PyStr.startswith n (resource_prefix self) = false) ->
  (forall n, In n before ->
     PyStr.startswith n (resource_prefix self) = false) ->
  PyStr.startswith role (resource_prefix self) = true ->
  discover_iam_role env self w
  = (Ok (Some role),
     {| calls := calls w ++
          CallPaginate :: repeat CallRolesPage (S (length pre));
        stdout := stdout w ++ [OutFoundRole role] |}).
Proof.
  intros Hl Hpre Hbefore Hr. unfold discover_iam_role.
  unfold try_except, bind. rewrite Hl.
  rewrite (scan_pages_found _ (before ++ role :: after) post role pre).
  - simpl. rewrite <- app_assoc. reflexivity.
  - intros roles Hin. apply find_none_of. intros n Hn.
    exact (Hpre roles n Hin Hn).
  - apply find_first; assumption.
Qed.

Lemma discover_iam_role_stops_at_first_match_witness :
  discover_iam_role Scenario.env_role_first_page Scenario.self1 world0
  = (Ok (Some Scenario.role),
     {| calls := [CallPaginate; CallRolesPage];
        stdout := [OutFoundRole Scenario.role] |}).
Proof.
  apply (discover_iam_role_stops_at_first_match
           Scenario.env_role_first_page Scenario.self1 world0
           [] ["admin"] ["acme-state-files-prod-other"] Scenario.role
           [inl Scenario.access_denied]).
  - reflexivity.
  - intros roles n [].
  - intros n [<-|[]]. reflexivity.
  - reflexivity.
Defined.

Lemma scan_pages_none prefix all : forall w,
  (forall roles, In roles all ->
     find (fun n => PyStr.startswith n prefix) roles = None) ->
  scan_pages prefix (map inr all) w
  = (Ok None,
     {| calls := calls w ++ repeat CallRolesPage (length all);
        stdout := stdout w |}).
Proof.
  induction all as [|roles all IH]; intros w Hno; simpl.
  - unfold ret. rewrite app_nil_r. destruct w; reflexivity.
  - unfold bind, fetch_page, boto_fetch. rewrite scan_names_find.
    rewrite (Hno roles (or_introl eq_refl)).
    rewrite IH by (intros x Hx; apply Hno; right; exact Hx).
    simpl. rewrite <- app_assoc. reflexivity.
Qed.

(** X11: when no role on any page carries the prefix,
    [discover_iam_role] fetches every page, returns [None] and prints
    nothing. *)
Theorem discover_iam_role_no_match
    (env : Env) (self : TerraformImporter) (w : World)
    (all : list (list string)) :
  iam_list_roles env (calls w) = map inr all ->
  (forall roles n, In roles all -> In n roles ->
     PyStr.startswith n (resource_prefix self) = false) ->
  discover_iam_role env self w
  = (Ok None,
     {| calls := calls w ++
          CallPaginate :: repeat CallRolesPage (length all);
        stdout := stdout w |}).
Proof.
  intros Hl Hno. unfold discover_iam_role.
  unfold try_except, bind. rewrite Hl.
  rewrite scan_pages_none.
  - simpl. rewrite <- app_assoc. reflexivity.
  - intros roles Hin. apply find_none_of. intros n Hn.
    exact (Hno roles n Hin Hn).
Qed.

Lemma discover_iam_role_no_match_witness :
  discover_iam_role Scenario.env_nothing Scenario.self1 world0
  = (Ok None,
     {| calls := [CallPaginate; CallRolesPage; CallRolesPage];
        stdout := [] |}).
Proof.
  apply (discover_iam_role_no_match Scenario.env_nothing Scenario.self1
           world0 [["admin"; "dev"]; ["x"]]).
  - reflexivity.
  - intros roles n [<-|[<-|[]]] Hn; simpl in Hn;
      repeat (destruct Hn as [<-|Hn]; [reflexivity|]); destruct Hn.
Defined.

(** ** Building the plan *)

(** X12: an interrupt (anything not derived from [Exception]) raised by
    the bucket listing is not swallowed: it leaves [get_import_commands]
    at once, before any role is listed and without a line printed. *)
Theorem get_import_commands_interrupted
    (env : Env) (self : TerraformImporter) (w : World) (e : py_exn) :
  s3_list_buckets env (calls w) = inl e ->
  is_Exception e = false ->
  get_import_commands env self w
  = (Raise e, {| calls := calls w ++ [CallListBuckets]; stdout := stdout w |}).
Proof.
  intros Hl He. unfold get_import_commands, discover_s3_bucket.
  unfold_monad. rewrite Hl, He. reflexivity.
Qed.

Lemma get_import_commands_interrupted_witness :
  get_import_commands Scenario.env_interrupt_listing Scenario.self1 world0
  = (Raise KeyboardInterrupt,
     {| calls := [CallListBuckets]; stdout := [] |}).
Proof.
  apply (get_import_commands_interrupted Scenario.env_interrupt_listing
           Scenario.self1 world0 KeyboardInterrupt);
    reflexivity.
Defined.

(** X13: the roles are listed even when no bucket was found, and then
    only the bucket warning is printed, whether a role was found or
    not. *)
Theorem get_import_commands_no_bucket
    (env : Env) (self : TerraformImporter) (w w1 w2 : World)
    (iam_role : option string) :
  discover_s3_bucket env self w = (Ok None, w1) ->
  discover_iam_role env self w1 = (Ok iam_role, w2) ->
  get_import_commands env self w
  = (Ok [], {| calls := calls w2; stdout := stdout w2 ++ [OutWarnNoBucket] |})
  /\ exists m,
       calls w2 = calls w ++
         CallListBuckets :: CallPaginate :: repeat CallRolesPage m.
Proof.
  intros Hb Hr. split.
  - unfold get_import_commands, bind. rewrite Hb, Hr. reflexivity.
  - pose proof (discover_s3_bucket_calls env self w) as Cb.
    destruct (discover_iam_role_calls env self w1) as [m Cr].
    rewrite Hb in Cb. rewrite Hr in Cr. simpl in Cb, Cr.
    exists m. rewrite Cr, Cb, <- app_assoc. reflexivity.
Qed.

Lemma get_import_commands_no_bucket_witness :
  get_import_commands Scenario.env_nothing Scenario.self1 world0
  = (Ok [],
     {| calls := [CallListBuckets; CallPaginate; CallRolesPage; CallRolesPage];
        stdout := [OutWarnNoBucket] |}).
Proof.
  apply (get_import_commands_no_bucket Scenario.env_nothing Scenario.self1
           world0
           (snd (discover_s3_bucket Scenario.env_nothing Scenario.self1
                   world0))
           (snd (discover_iam_role Scenario.env_nothing Scenario.self1
                   (snd (discover_s3_bucket Scenario.env_nothing
                           Scenario.self1 world0))))
           None);
    reflexivity.
Defined.

(** A plan is empty or comes from a discovered bucket and role. *)
Lemma get_import_commands_inv env self w plan w' :
  get_import_commands env self w = (Ok plan, w') ->
  plan = []
  \/ exists b r w1,
       discover_s3_bucket env self w = (Ok (Some b), w1)
       /\ discover_iam_role env self w1 = (Ok (Some r), w')
       /\ map fst plan = static_addresses
       /\ map snd plan
          = [b; b; b; b; b; r; (r ++ ":terraform-state-files-policy")%string].
Proof.
  unfold get_import_commands, bind.
  destruct (discover_s3_bucket env self w) as [[ob|e] w1]; [|discriminate].
  destruct (discover_iam_role env self w1) as [[orl|e] w2] eqn:Er;
    [|discriminate].
  destruct ob as [b|]; simpl;
    [|unfold_monad; intros H; inv H; left; reflexivity].
  destruct (PyStr.truthy b); simpl;
    [|unfold_monad; intros H; inv H; left; reflexivity].
  destruct orl as [r|]; simpl;
    [|unfold_monad; intros H; inv H; left; reflexivity].
  destruct (PyStr.truthy r); simpl;
    [|unfold_monad; intros H; inv H; left; reflexivity].
  unfold ret. intros H; inv H. right. exists b, r, w1.
  split; [reflexivity|]. split; [exact Er|]. split; reflexivity.
Qed.

Lemma prefix_app (p s t : string) :
  String.prefix p s = true -> String.prefix p (s ++ t) = true.
Proof.
  revert s. induction p as [|c p IH]; intros s;
    [intros _; destruct (s ++ t)%string; reflexivity|].
  destruct s as [|d s]; simpl; [discriminate|].
  destruct (ascii_dec c d); [apply IH | discriminate].
Qed.

(** X14: whatever plan [get_import_commands] returns, no managed address
    occurs in it twice, and every external id in it starts with the
    importer's resource prefix. *)
Theorem get_import_commands_plan_wellformed
    (env : Env) (self : TerraformImporter) (w w' : World)
    (plan : list (string * string)) :
  get_import_commands env self w = (Ok plan, w') ->
  NoDup (map fst plan)
  /\ (forall address id, In (address, id) plan ->
        PyStr.startswith id (resource_prefix self) = true).
Proof.
  intros H.
  destruct (get_import_commands_inv _ _ _ _ _ H)
    as [-> | (b & r & w1 & Hb & Hr & Ha & Hi)].
  - split; [constructor | intros a x []].
  - apply discover_s3_bucket_some in Hb.
    apply discover_iam_role_some in Hr.
    split.
    + rewrite Ha. unfold static_addresses.
      repeat (constructor; [simpl; intuition discriminate|]). constructor.
    + intros a x Hin.
      assert (Hx : In x (map snd plan)) by (apply (in_map snd) in Hin; exact Hin).
      rewrite Hi in Hx. simpl in Hx.
      repeat (destruct Hx as [<-|Hx]; [try assumption|]); [|destruct Hx].
      unfold PyStr.startswith in *. apply prefix_app, Hr.
Qed.

Lemma get_import_commands_plan_wellformed_witness :
  PyStr.startswith "acme-state-files-prod-role:terraform-state-files-policy"
    (resource_prefix Scenario.self1) = true.
Proof.
  destruct (get_import_commands_plan_wellformed
              Scenario.env1 Scenario.self1 world0
              (snd (get_import_commands Scenario.env1 Scenario.self1 world0))
              (match fst (get_import_commands Scenario.env1 Scenario.self1
                            world0) with
               | Ok plan => plan
               | Raise _ => []
               end)
              eq_refl) as [_ Hids].
  apply (Hids "aws_iam_role_policy.terraform_state_policy").
  simpl. tauto.
Defined.

(** ** Running the plan *)

(** X15: in Apply mode an exception other than [CalledProcessError]
    raised by the import at position [k] (a missing executable, an
    interrupt) ends the loop there: it is raised to the caller, the
    imports up to position [k] have been invoked and none after it, and
    the last line printed announces the import at position [k]. *)
Theorem import_loop_halts_on_other_exception
    (env : Env) (plan : list (string * string)) (k : nat) (w : World)
    (address id : string) (e : py_exn) :
  (forall j a x, j < k -> nth_error plan j = Some (a, x) ->
     proc_exits (terraform_import env (history_at (calls w) plan j) a x)
     = true) ->
  nth_error plan k = Some (address, id) ->
  terraform_import env (history_at (calls w) plan k) address id
  = ProcRaise e ->
  is_CalledProcessError e = false ->
  exists w' printed,
    run_import_loop env false plan w = (Raise e, w')
    /\ calls w' = calls w ++ map import_call (firstn (S k) plan)
    /\ stdout w'
       = printed ++
         [OutRunning (PyStr.join " " ["terraform"; "import"; address; id])].
Proof.
  revert k w. induction plan as [|[a x] plan IH]; intros k w Hex Hk Hout He.
  - destruct k; discriminate.
  - destruct k as [|k].
    + inv Hk. rewrite history_at_0 in Hout.
      exists {| calls := calls w ++ [CallImport address id];
                stdout := stdout w ++
                  [OutRunning (PyStr.join " "
                     ["terraform"; "import"; address; id])] |},
        (stdout w).
      split; [|split; reflexivity].
      cbn [run_import_loop]. unfold_monad. cbn [calls].
      rewrite Hout, He. reflexivity.
    + pose proof (Hex 0 a x (Nat.lt_0_succ k) eq_refl) as H0.
      rewrite history_at_0 in H0.
      rewrite run_import_loop_apply_step by exact H0.
      match goal with
      | |- context [run_import_loop env false plan ?w0] =>
          destruct (IH k w0) as (w' & printed & Hrun & Hc & Hs)
      end.
      * intros j b y Hj Hn. cbn [calls].
        assert (Hlt : S j < S k) by lia.
        pose proof (Hex (S j) b y Hlt Hn) as H.
        rewrite history_at_S in H. exact H.
      * exact Hk.
      * cbn [calls]. rewrite history_at_S in Hout. exact Hout.
      * exact He.
      * exists w', printed. split; [exact Hrun|]. split; [|exact Hs].
        rewrite Hc. cbn [calls]. rewrite <- app_assoc. reflexivity.
Qed.

Lemma import_loop_halts_on_other_exception_witness :
  exists w',
    run_import_loop Scenario.env_interrupt false Scenario.plan3 world0
    = (Raise KeyboardInterrupt, w')
    /\ calls w'
       = [ CallImport "aws_s3_bucket.terraform_state" Scenario.bucket;
           CallImport "aws_s3_bucket_versioning.terraform_state_versioning"
             Scenario.bucket ].
Proof.
  destruct (import_loop_halts_on_other_exception Scenario.env_interrupt
              Scenario.plan3 1 world0
              "aws_s3_bucket_versioning.terraform_state_versioning"
              Scenario.bucket KeyboardInterrupt)
    as (w' & printed & Hrun & Hc & _).
  - intros j a x Hj Hn. destruct j as [|j]; [|lia].
    inv Hn. reflexivity.
  - reflexivity.
  - reflexivity.
  - reflexivity.
  - exists w'. split; [exact Hrun | exact Hc].
Defined.

(** X16: when the gate is open and discovery misses the bucket or the
    role, [run_import] prints one warning (for the bucket when the bucket
    is missing, else for the role) and then that there is nothing to
    import, and returns; in Apply mode too it makes no call after the
    listings. *)
Theorem run_import_nothing_found
    (env : Env) (self : TerraformImporter) (dry_run : bool)
    (w w1 w2 w3 : World) (s3_bucket iam_role : option string) :
  check_import_needed env w = (Ok true, w1) ->
  discover_s3_bucket env self (after_banner self w1) = (Ok s3_bucket, w2) ->
  discover_iam_role env self w2 = (Ok iam_role, w3) ->
  s3_bucket = None \/ iam_role = None ->
  run_import env self dry_run w
  = (Ok tt,
     {| calls := calls w3;
        stdout := (stdout w3 ++
                   [if PyStr.truthy_opt s3_bucket
                    then OutWarnNoRole else OutWarnNoBucket])
                  ++ [OutNoResources] |}).
Proof.
  intros Hn Hb Hr Hmiss.
  rewrite (run_import_open _ _ _ _ _ Hn). fold (after_banner self w1).
  unfold get_import_commands, bind. rewrite Hb, Hr.
  destruct s3_bucket as [b|]; simpl; [|reflexivity].
  destruct (PyStr.truthy b); simpl; [|reflexivity].
  destruct iam_role as [r|]; [destruct Hmiss; discriminate | reflexivity].
Qed.

Lemma run_import_nothing_found_witness :
  run_import Scenario.env_no_role Scenario.self1 false world0
  = (Ok tt,
     {| calls := [ CallConsole flag_input; CallListBuckets; CallPaginate;
                   CallRolesPage; CallRolesPage ];
        stdout := [ OutStarting "prod"; OutProfile "mfa";
                    OutPrefix "acme-state-files-prod"; OutBlank;
                    OutFoundBucket Scenario.bucket;
                    OutWarnNoRole; OutNoResources ] |}).
Proof.
  apply (run_import_nothing_found Scenario.env_no_role Scenario.self1
           false world0
           (snd (check_import_needed Scenario.env_no_role world0))
           (snd (discover_s3_bucket Scenario.env_no_role Scenario.self1
                   (after_banner Scenario.self1
                      (snd (check_import_needed Scenario.env_no_role
                              world0)))))
           (snd (discover_iam_role Scenario.env_no_role Scenario.self1
                   (snd (discover_s3_bucket Scenario.env_no_role
                           Scenario.self1
                           (after_banner Scenario.self1
                              (snd (check_import_needed
                                      Scenario.env_no_role world0)))))))
           (Some Scenario.bucket) None
           eq_refl eq_refl eq_refl (or_intror eq_refl)).
Defined.

Lemma scan_pages_raise prefix pages : forall w e w',
  scan_pages prefix pages w = (Raise e, w') -> In (inl e) pages.
Proof.
  induction pages as [|page pages IH]; intros w e w' H; simpl in H.
  - inv H.
  - unfold_monad. destruct page as [e0|roles]; simpl in H.
    + inv H. left. reflexivity.
    + rewrite scan_names_find in H. destruct (find _ roles); [inv H|].
      right. eapply IH, H.
Qed.

Lemma discover_iam_role_returns env self w :
  (forall e, In (inl e) (iam_list_roles env (calls w)) ->
     is_Exception e = true) ->
  exists o, fst (discover_iam_role env self w) = Ok o.
Proof.
  intros H. unfold discover_iam_role. unfold try_except, bind.
  destruct (scan_pages _ _ _) as [[o|e] w1] eqn:S.
  - eexists; reflexivity.
  - apply scan_pages_raise in S. rewrite (H e S). eexists; reflexivity.
Qed.

Lemma get_import_commands_returns env self w :
  uninterrupted env ->
  exists plan, fst (get_import_commands env self w) = Ok plan.
Proof.
  intros (Hb & Hr & _). unfold get_import_commands, bind.
  destruct (discover_s3_bucket_returns env self w (Hb (calls w))) as [ob Eb].
  destruct (discover_s3_bucket env self w) as [rb w1]. simpl in Eb. subst rb.
  destruct (discover_iam_role_returns env self w1 (Hr (calls w1)))
    as [orl Er].
  destruct (discover_iam_role env self w1) as [rr w2]. simpl in Er. subst rr.
  destruct (negb (PyStr.truthy_opt ob)); [eexists; reflexivity|].
  destruct (negb (PyStr.truthy_opt orl)); eexists; reflexivity.
Qed.

Lemma run_import_returns env self dry_run w :
  uninterrupted env -> fst (run_import env self dry_run w) = Ok tt.
Proof.
  intros U. destruct (check_import_needed_run env w) as [needed Hn].
  destruct needed.
  - rewrite (run_import_open _ _ _ _ _ Hn).
    match goal with
    | |- context [get_import_commands env self ?w0] =>
        destruct (get_import_commands_returns env self w0 U) as [plan Hp];
        destruct (get_import_commands env self w0) as [r w2]
    end.
    simpl in Hp. subst r. destruct plan as [|c plan]; [reflexivity|].
    destruct dry_run.
    + rewrite run_import_loop_dry. reflexivity.
    + rewrite run_import_loop_apply; [reflexivity|].
      intros j a x _. apply U.
  - unfold run_import, bind. rewrite Hn. reflexivity.
Qed.

(** X17: failed imports and failed listings never surface as an
    exception.  In an environment without interrupts [run_import] returns
    normally in both modes, and so does [main] once the constructor has
    returned: the exit status does not tell whether the imports
    succeeded. *)
Theorem failures_do_not_propagate (env : Env) :
  uninterrupted env ->
  (forall self dry_run w, fst (run_import env self dry_run w) = Ok tt)
  /\ (forall args w self w1,
        __init__ env (arg_profile args) (arg_workspace args) w
        = (Ok self, w1) ->
        fst (main env args w) = Ok tt).
Proof.
  intros U. split.
  - intros self dry_run w. apply run_import_returns, U.
  - intros args w self w1 Hi. unfold main, try_except, bind. rewrite Hi.
    pose proof (run_import_returns env self (arg_dry_run args) w1 U) as R.
    destruct (run_import env self (arg_dry_run args) w1) as [r w2].
    simpl in R. subst r. reflexivity.
Qed.

Lemma failures_do_not_propagate_witness :
  fst (main Scenario.env1 Scenario.args_apply world0) = Ok tt
  /\ In (OutFailed "aws_s3_bucket_versioning.terraform_state_versioning"
           "Error: Cannot import non-existent remote object")
        (stdout (snd (main Scenario.env1 Scenario.args_apply world0))).
Proof.
  split.
  - assert (U : uninterrupted Scenario.env1).
    { split; [intros h e H; discriminate|]. split.
      - intros h e [H|[H|[H|[]]]]; discriminate.
      - intros h a x. simpl. destruct (String.eqb a _); reflexivity. }
    destruct (failures_do_not_propagate Scenario.env1 U) as [_ Hmain].
    apply (Hmain Scenario.args_apply world0 Scenario.self1
             (snd (__init__ Scenario.env1 "mfa" None world0))).
    reflexivity.
  - vm_compute. tauto.
Defined.

(** X18: the bucket listing is reached only through an open gate: if a
    run of [run_import] lists the buckets, the flag query exited with
    status zero and printed [true], up to letter case and surrounding
    whitespace. *)
Theorem run_import_lists_only_if_flag
    (env : Env) (self : TerraformImporter) (dry_run : bool) (w : World)
    (new : list Call) :
  calls (snd (run_import env self dry_run w)) = calls w ++ new ->
  In CallListBuckets new ->
  exists out err,
    terraform_console env (calls w) flag_input = ProcExit 0 out err
    /\ PyStr.lower (PyStr.strip out) = "true"%string.
Proof.
  intros Hc Hin.
  assert (Closed : check_import_needed env w
                   = (Ok false, record_call (CallConsole flag_input) w) ->
                   False).
  { intros Hn. unfold run_import, bind in Hc. rewrite Hn in Hc.
    simpl in Hc. apply app_inv_head in Hc. subst new.
    destruct Hin as [H|[]]. discriminate. }
  unfold check_import_needed in Closed. unfold_monad. fold flag_input in Closed.
  destruct (terraform_console env (calls w) flag_input) as [code out err|e].
  - destruct (code =? 0)%Z eqn:E.
    + apply Z.eqb_eq in E. subst code.
      rewrite flag_test_universal_newlines in Closed.
      destruct (String.eqb (PyStr.lower (PyStr.strip out)) "true") eqn:T.
      * apply String.eqb_eq in T. exists out, err. split; [reflexivity|exact T].
      * exfalso. apply Closed. reflexivity.
    + exfalso. apply Closed. reflexivity.
  - exfalso. apply Closed. reflexivity.
Qed.

Lemma run_import_lists_only_if_flag_witness :
  exists out err,
    terraform_console Scenario.env1 [] flag_input = ProcExit 0 out err
    /\ PyStr.lower (PyStr.strip out) = "true"%string.
Proof.
  apply (run_import_lists_only_if_flag Scenario.env1 Scenario.self1 true
           world0
           [ CallConsole flag_input; CallListBuckets; CallPaginate;
             CallRolesPage; CallRolesPage ]).
  - reflexivity.
  - right. left. reflexivity.
Defined.

(** ** What a whole run may call *)

Lemma run_import_loop_apply_prefix env plan : forall w,
  exists m,
    calls (snd (run_import_loop env false plan w))
    = calls w ++ map import_call (firstn m plan).
Proof.
  induction plan as [|[a x] plan IH]; intros w.
  - exists 0. simpl. rewrite app_nil_r. reflexivity.
  - destruct (terraform_import env (calls w) a x) as [code out err|e] eqn:O.
    + rewrite run_import_loop_apply_step by (rewrite O; reflexivity).
      match goal with
      | |- context [run_import_loop env false plan ?w0] =>
          destruct (IH w0) as [m Hm]
      end.
      exists (S m). rewrite Hm. cbn [calls firstn map].
      rewrite <- app_assoc. reflexivity.
    + cbn [run_import_loop]. unfold_monad. cbn [calls]. rewrite O.
      destruct (is_CalledProcessError e).
      * match goal with
        | |- context [run_import_loop env false plan ?w0] =>
            destruct (IH w0) as [m Hm]
        end.
        exists (S m). rewrite Hm. unfold record_call. cbn [calls firstn map].
        rewrite <- app_assoc. reflexivity.
      * exists 1. reflexivity.
Qed.

Lemma run_import_calls_shape env self dry_run w :
  exists pre plan m,
    calls (snd (run_import env self dry_run w))
    = calls w ++ pre ++ map import_call (firstn m plan)
    /\ Forall (fun c => is_import c = false) pre
    /\ (plan = [] \/ map fst plan = static_addresses)
    /\ (dry_run = true -> m = 0).
Proof.
  destruct (check_import_needed_run env w) as [needed Hn].
  destruct needed.
  2:{ exists [CallConsole flag_input], [], 0.
      unfold run_import, bind. rewrite Hn. simpl.
      split; [reflexivity|]. split; [repeat constructor|].
      split; [left; reflexivity | reflexivity]. }
  rewrite (run_import_open _ _ _ _ _ Hn).
  cbn [calls stdout record_call].
  match goal with
  | |- context [get_import_commands env self ?w0] =>
      destruct (get_import_commands_calls env self w0) as (l & Hl & Fl & _);
      pose proof (get_import_commands_inv env self w0) as Inv;
      destruct (get_import_commands env self w0) as [[plan|e] w2]
  end; cbn [calls snd] in Hl.
  all: assert (Fpre : Forall (fun c => is_import c = false)
                        (CallConsole flag_input :: CallListBuckets :: l))
    by (constructor; [reflexivity|]; constructor; [reflexivity | exact Fl]).
  2:{ exists (CallConsole flag_input :: CallListBuckets :: l), [], 0.
      cbn [snd firstn map]. rewrite app_nil_r, Hl, <- app_assoc.
      split; [reflexivity|]. split; [exact Fpre|].
      split; [left; reflexivity | reflexivity]. }
  assert (Table : plan = [] \/ map fst plan = static_addresses).
  { destruct (Inv plan w2 eq_refl) as [E | (b & r & w1 & _ & _ & Ha & _)];
      [left; exact E | right; exact Ha]. }
  destruct plan as [|c plan].
  - exists (CallConsole flag_input :: CallListBuckets :: l), [], 0.
    cbn [snd calls firstn map]. rewrite app_nil_r, Hl, <- app_assoc.
    split; [reflexivity|]. split; [exact Fpre|].
    split; [left; reflexivity | reflexivity].
  - destruct dry_run.
    + rewrite run_import_loop_dry.
      exists (CallConsole flag_input :: CallListBuckets :: l), (c :: plan), 0.
      cbn [snd calls firstn map]. rewrite app_nil_r, Hl, <- app_assoc.
      split; [reflexivity|]. split; [exact Fpre|].
      split; [exact Table | reflexivity].
    + match goal with
      | |- context [run_import_loop env false (c :: plan) ?w0] =>
          destruct (run_import_loop_apply_prefix env (c :: plan) w0)
            as [m Hm]
      end.
      exists (CallConsole flag_input :: CallListBuckets :: l), (c :: plan), m.
      rewrite Hm. cbn [calls]. rewrite Hl, <- !app_assoc.
      split; [reflexivity|]. split; [exact Fpre|].
      split; [exact Table | discriminate].
Qed.

Lemma init_calls env prof ows w :
  exists l,
    calls (snd (__init__ env prof ows w)) = calls w ++ l
    /\ Forall (fun c => is_import c = false) l.
Proof.
  unfold __init__.
  destruct (PyStr.truthy_opt ows).
  - destruct (init_after_workspace env prof (PyStr.value ows) w)
      as (l & Hc & _ & Fl & _).
    exists l. split; [exact Hc | exact Fl].
  - unfold bind at 1.
    pose proof (get_current_workspace_calls env w) as Hw.
    destruct (_get_current_workspace env w) as [[ws|e] w1]; simpl in Hw.
    + destruct (init_after_workspace env prof ws w1) as (l & Hc & _ & Fl & _).
      exists (CallWorkspaceShow :: l). split.
      * etransitivity; [exact Hc|]. rewrite Hw, <- app_assoc. reflexivity.
      * constructor; [reflexivity | exact Fl].
    + exists [CallWorkspaceShow]. split; [exact Hw|].
      constructor; [reflexivity | constructor].
Qed.

Lemma main_calls_shape env args w :
  exists pre plan m,
    calls (snd (main env args w))
    = calls w ++ pre ++ map import_call (firstn m plan)
    /\ Forall (fun c => is_import c = false) pre
    /\ (plan = [] \/ map fst plan = static_addresses)
    /\ (arg_dry_run args = true -> m = 0).
Proof.
  assert (Body : exists pre plan m,
            calls (snd ((importer <- __init__ env (arg_profile args)
                                       (arg_workspace args) ;;
                         run_import env importer (arg_dry_run args)) w))
            = calls w ++ pre ++ map import_call (firstn m plan)
            /\ Forall (fun c => is_import c = false) pre
            /\ (plan = [] \/ map fst plan = static_addresses)
            /\ (arg_dry_run args = true -> m = 0)).
  { unfold bind.
    destruct (init_calls env (arg_profile args) (arg_workspace args) w)
      as (l & Hl & Fl).
    destruct (__init__ env (arg_profile args) (arg_workspace args) w)
      as [[self|e] w1]; cbn [snd] in Hl.
    - destruct (run_import_calls_shape env self (arg_dry_run args) w1)
        as (pre & plan & m & Hc & Fp & Tb & Hm).
      exists (l ++ pre), plan, m. split; [|split; [|split]].
      + rewrite Hc, Hl, <- !app_assoc. reflexivity.
      + apply Forall_app. split; assumption.
      + exact Tb.
      + exact Hm.
    - exists l, [], 0. cbn [snd firstn map]. rewrite app_nil_r.
      repeat split; auto. }
  destruct Body as (pre & plan & m & Hc & Fp & Tb & Hm).
  exists pre, plan, m. split; [|repeat split; assumption].
  rewrite <- Hc. unfold main, try_except.
  destruct (bind _ _ w) as [[[]|e] w1]; [reflexivity|].
  destruct e; reflexivity.
Qed.

(** X19: with [--dry-run] a run of [main] never invokes
    [terraform import], whatever the environment answers. *)
Theorem main_dry_run_never_imports (env : Env) (args : Args) (w : World) :
  arg_dry_run args = true ->
  exists new,
    calls (snd (main env args w)) = calls w ++ new
    /\ Forall (fun c => is_import c = false) new.
Proof.
  intros Hdry.
  destruct (main_calls_shape env args w) as (pre & plan & m & Hc & Fp & _ & Hm).
  rewrite (Hm Hdry) in Hc. cbn [firstn map] in Hc. rewrite app_nil_r in Hc.
  exists pre. split; assumption.
Qed.

Lemma main_dry_run_never_imports_witness :
  exists new,
    calls (snd (main Scenario.env1 Scenario.args_dry world0)) = new
    /\ Forall (fun c => is_import c = false) new.
Proof.
  apply (main_dry_run_never_imports Scenario.env1 Scenario.args_dry world0).
  reflexivity.
Defined.

Lemma In_firstn {A} (x : A) (l : list A) : forall n,
  In x (firstn n l) -> In x l.
Proof.
  induction l as [|y l IH]; intros [|n] H; simpl in H; try contradiction.
  destruct H as [H|H]; [left; exact H | right; eapply IH, H].
Qed.

(** X20: in every run of [main] the imports come last, after every other
    external call; there are at most seven of them, and each one targets
    one of the seven managed addresses of the static table. *)
Theorem main_imports_within_table (env : Env) (args : Args) (w : World) :
  exists pre imports,
    calls (snd (main env args w)) = calls w ++ pre ++ imports
    /\ Forall (fun c => is_import c = false) pre
    /\ length imports <= 7
    /\ (forall c, In c imports ->
          exists address id,
            c = CallImport address id /\ In address static_addresses).
Proof.
  destruct (main_calls_shape env args w) as (pre & plan & m & Hc & Fp & Tb & _).
  exists pre, (map import_call (firstn m plan)).
  assert (Len : length plan <= 7).
  { destruct Tb as [-> | Ha]; [simpl; lia|].
    rewrite <- (length_map fst plan), Ha. reflexivity. }
  split; [exact Hc|]. split; [exact Fp|]. split.
  - rewrite length_map, length_firstn. lia.
  - intros c Hin. apply in_map_iff in Hin as ((a, x) & <- & Hin).
    exists a, x. split; [reflexivity|].
    apply In_firstn in Hin.
    destruct Tb as [-> | Ha]; [destruct Hin|].
    rewrite <- Ha. apply (in_map fst) in Hin. exact Hin.
Qed.

(** ** Reading the tool's answers *)

(** X21: the gate opens for [true] in any letter case and with any
    whitespace around it: when the flag query exits with status zero and
    prints such a word, [check_import_needed] returns [True]. *)
Theorem check_import_needed_accepts
    (env : Env) (w : World) (pre word post err : string) :
  terraform_console env (calls w) flag_input
  = ProcExit 0 (pre ++ word ++ post) err ->
  string_forall PyStr.isspace pre = true ->
  string_forall PyStr.isspace post = true ->
  PyStr.lower word = "true"%string ->
  check_import_needed env w
  = (Ok true, record_call (CallConsole flag_input) w).
Proof.
  intros Hout Hpre Hpost Hlow.
  destruct word as [|c1 [|c2 [|c3 [|c4 [|c5 rest]]]]]; try discriminate.
  simpl in Hlow. inversion Hlow as [[L1 L2 L3 L4]].
  assert (S1 : PyStr.isspace c1 = false)
    by (apply (lower_true_not_space c1 "t"); [left; reflexivity | exact L1]).
  assert (S4 : PyStr.isspace c4 = false)
    by (apply (lower_true_not_space c4 "e");
        [right; left; reflexivity | exact L4]).
  unfold check_import_needed. unfold_monad. fold flag_input.
  rewrite Hout. simpl "=?"%Z. cbv iota.
  rewrite flag_test_universal_newlines. unfold PyStr.strip.
  rewrite (strip_with_padding PyStr.isspace pre
             (String c1 (String c2 (String c3 (String c4 EmptyString))))
             post c1 c4
             (String c2 (String c3 (String c4 EmptyString)))
             (String c1 (String c2 (String c3 EmptyString))))
    by (try assumption; reflexivity).
  simpl PyStr.lower. rewrite L1, L2, L3, L4. reflexivity.
Qed.

Lemma check_import_needed_accepts_witness :
  check_import_needed Scenario.env1 world0
  = (Ok true, record_call (CallConsole flag_input) world0).
Proof.
  apply (check_import_needed_accepts Scenario.env1 world0
           EmptyString "true" newline EmptyString);
    reflexivity.
Defined.

(** X22: a dry run of a plan prints, for every entry and in plan order,
    one line holding the command [terraform import <address> <id>], and
    does nothing else. *)
Theorem dry_run_reports_commands
    (env : Env) (plan : list (string * string)) (w : World) :
  run_import_loop env true plan w
  = (Ok tt,
     {| calls := calls w;
        stdout := stdout w ++
          map (fun c => OutDryRun
                 ("terraform import " ++ fst c ++ " " ++ snd c)%string)
              plan |}).
Proof.
  rewrite run_import_loop_dry. reflexivity.
Qed.

(** X23: an empty project name falls back to the default: when the
    project-name query exits with status zero but prints only whitespace,
    or only quotes with whitespace around them (the empty string, as the
    tool prints it), [_get_project_name] returns ["terraform-core"]. *)
Theorem get_project_name_default_on_blank
    (env : Env) (w : World) (pre quotes post err : string) :
  terraform_console env (calls w) ("var.project_name" ++ newline)%string
  = ProcExit 0 (pre ++ quotes ++ post) err ->
  string_forall PyStr.isspace pre = true ->
  string_forall PyStr.isspace post = true ->
  string_forall is_quote quotes = true ->
  _get_project_name env w
  = (Ok "terraform-core"%string,
     record_call (CallConsole ("var.project_name" ++ newline)%string) w).
Proof.
  intros Hout Hpre Hpost Hq.
  assert (S1 : PyStr.strip_chars [double_quote]
                 (PyStr.strip
                    (PyStr.universal_newlines (pre ++ quotes ++ post)))
               = EmptyString).
  { rewrite strip_universal_newlines.
    assert (S0 : PyStr.strip (pre ++ quotes ++ post) = quotes).
    { unfold PyStr.strip. destruct quotes as [|c n].
      - simpl append. apply strip_with_all.
        rewrite string_forall_app, Hpre, Hpost. reflexivity.
      - destruct (string_snoc c n) as (m & d & E).
        assert (Qc : is_quote c = true)
          by (simpl in Hq; apply andb_prop in Hq; apply Hq).
        assert (Qd : is_quote d = true).
        { rewrite E, string_forall_app in Hq. simpl in Hq.
          apply andb_prop in Hq as [_ Hq]. apply andb_prop in Hq. apply Hq. }
        apply (strip_with_padding PyStr.isspace pre (String c n) post
                 c d n m);
          try assumption; try reflexivity;
          apply is_quote_not_space; assumption. }
    rewrite S0, universal_newlines_no_cr.
    - unfold PyStr.strip_chars. fold is_quote. apply strip_with_all, Hq.
    - apply (string_forall_impl is_quote); [|exact Hq].
      intros c Hc. unfold is_quote in Hc. simpl in Hc.
      rewrite orb_false_r in Hc. apply Ascii.eqb_eq in Hc. subst c.
      reflexivity. }
  unfold _get_project_name. unfold_monad. rewrite Hout. simpl "=?"%Z.
  cbv iota. rewrite S1. reflexivity.
Qed.

Lemma get_project_name_default_on_blank_witness :
  _get_project_name Scenario.env_empty_project world0
  = (Ok "terraform-core"%string,
     record_call (CallConsole ("var.project_name" ++ newline)%string) world0).
Proof.
  apply (get_project_name_default_on_blank Scenario.env_empty_project world0
           EmptyString (String double_quote (String double_quote EmptyString))
           newline EmptyString);
    reflexivity.
Defined.
